(** * The fully connected operator and its symbol

    A shallow embedding of [src/operator/static_operator/fully_connect_op-inl.h]:
    [FullyConnectOp::Forward], [FullyConnectOp::Backward],
    [FullyConnectSymbol::InferShape] and
    [FullyConnectSymbol::DeclareBackwardDependency].

    The C++ methods mutate vectors of shapes and of tensor buffers and abort
    through [CHECK] macros.  They are embedded in a small state monad whose
    outcome records how a call ended and which state it left behind. *)

From stdpp Require Import base option list numbers strings.

Local Open Scope Z_scope.

(** ** Outcomes of a call *)

(** [Ok a s]: the method returned [a] and left the state [s].
    [Fatal s]: a [CHECK] failed ([LOG(FATAL)]); [s] is the state that had been
    reached, so that writes made before the failure stay visible.
    [Undefined]: the method indexed a [std::vector] or a shape out of range,
    which C++ leaves undefined. *)
Inductive outcome (S A : Type) : Type :=
  | Ok (a : A) (s : S)
  | Fatal (s : S)
  | Undefined.
Arguments Ok {S A} a s.
Arguments Fatal {S A} s.
Arguments Undefined {S A}.

Definition M (S A : Type) : Type := S → outcome S A.

#[global] Instance M_ret {S} : MRet (M S) := λ A a s, Ok a s.

#[global] Instance M_bind {S} : MBind (M S) := λ A B f m s,
  match m s with
  | Ok a s' => f a s'
  | Fatal s' => Fatal s'
  | Undefined => Undefined
  end.

Definition get_state {S} : M S S := λ s, Ok s s.
Definition put_state {S} (s : S) : M S unit := λ _, Ok tt s.

(** [CHECK(b)], [CHECK_EQ], [CHECK_NE], [CHECK_GT] of dmlc/logging.h. *)
Definition CHECK {S} (b : bool) : M S unit :=
  λ s, if b then Ok tt s else Fatal s.

(** [v[i]] on a [std::vector] (no bounds check). *)
Definition vec_at {S A} (v : list A) (i : nat) : M S A :=
  λ s, match v !! i with Some x => Ok x s | None => Undefined end.

(** The state a call left behind, when it has one. *)
Definition final_state {S A} (o : outcome S A) : option S :=
  match o with
  | Ok _ s => Some s
  | Fatal s => Some s
  | Undefined => None
  end.

(** ** Slot conventions, lines 22-23 *)

(** [enum FullyConnectOpInputs {kData, kWeight, kBias}] *)
Definition kData : nat := 0%nat.
Definition kWeight : nat := 1%nat.
Definition kBias : nat := 2%nat.
(** [enum FullyConnectOpOutputs {kOut}] *)
Definition kOut : nat := 0%nat.

(** ** Configuration and shapes *)

(** Modelled from the spec: [Param] is declared in [param.h], which is not
    under src/.  The spec's LayerConfig has a hidden-unit count and a no-bias
    flag (0 = has bias, nonzero = no bias); both are integers. *)
Record Param : Type := { num_hidden : Z; no_bias : Z }.

(** Modelled from the spec: [TShape] is declared outside src/.  A shape is an
    ordered sequence of extents; [ndim] is its length and the unknown shape is
    the one with [ndim() == 0] (line 136: "Require data shape to be known"). *)
Definition TShape : Type := list Z.
Definition ndim (s : TShape) : nat := length s.

(** [mshadow::Shape1] and [mshadow::Shape2], seen as shapes. *)
Definition Shape1 (a : Z) : TShape := [a].
Definition Shape2 (a b : Z) : TShape := [a; b].

(** [size_t expected = param_.no_bias == 0 ? 3 : 2], lines 48 and 73. *)
Definition expected (p : Param) : nat :=
  if decide (no_bias p = 0) then 3%nat else 2%nat.

(** ** Shape inference, lines 124-145 *)

(** The two vectors [InferShape] receives by pointer. *)
Record Shapes : Type := { in_shape : list TShape; out_shape : list TShape }.

Definition set_in_shape (v : list TShape) : M Shapes unit :=
  λ s, Ok tt {| in_shape := v; out_shape := out_shape s |}.
Definition set_out_shape (v : list TShape) : M Shapes unit :=
  λ s, Ok tt {| in_shape := in_shape s; out_shape := v |}.

(** Slot [i] of [*in_shape], read through the pointer at the time of use. *)
Definition in_shape_at (i : nat) : M Shapes TShape :=
  s ← get_state; vec_at (in_shape s) i.

(** Modelled from the spec: [ShapeAssignCheck] is defined in
    [static_operator_common.h], which is not under src/.  The spec's
    shape-assign-check rule: if the target shape slot is unknown, fill it; if
    known, verify equality; mismatch is a hard failure.  The target is
    slot [i] of [*in_shape]. *)
Definition ShapeAssignCheck (i : nat) (shape : TShape) : M Shapes unit :=
  out ← in_shape_at i;
  if decide (ndim out = 0%nat) then
    s ← get_state; set_in_shape (<[i := shape]> (in_shape s))
  else
    CHECK (bool_decide (out = shape)).

(** [FullyConnectSymbol::InferShape].  [dshape] is a reference to
    slot 0 of [*in_shape], so every use of it reads that slot again. *)
Definition InferShape (p : Param) : M Shapes bool :=
  s ← get_state;
  (if decide (no_bias p = 0)
   then CHECK (bool_decide (length (in_shape s) = 3%nat))
   else CHECK (bool_decide (length (in_shape s) = 2%nat)));;
  CHECK (bool_decide (num_hidden p > 0));;
  dshape ← in_shape_at 0;
  CHECK (bool_decide (ndim dshape = 4%nat));;
  CHECK (negb (bool_decide (ndim dshape = 0%nat)));;
  d3 ← vec_at dshape 3;
  ShapeAssignCheck kWeight (Shape2 (num_hidden p) d3);;
  (if decide (no_bias p = 0)
   then ShapeAssignCheck kBias (Shape1 (num_hidden p))
   else mret tt);;
  (* out_shape->clear(); out_shape->push_back(dshape); *)
  set_out_shape [];;
  dshape ← in_shape_at 0;
  s ← get_state;
  set_out_shape (out_shape s ++ [dshape]);;
  (* out_shape->at(0)[3] = param_.num_hidden; *)
  s ← get_state;
  o ← vec_at (out_shape s) 0;
  _ ← vec_at o 3;
  set_out_shape (<[0%nat := <[3%nat := num_hidden p]> o]> (out_shape s));;
  mret true.

(** A shape is known when it is not the unknown shape. *)
Definition known (s : TShape) : Prop := ndim s ≠ 0%nat.

(** Slot [i] is unknown or already holds [shape]: what the
    shape-assign-check rule accepts. *)
Definition fits (ins : list TShape) (i : nat) (shape : TShape) : Prop :=
  ins !! i = Some [] ∨ ins !! i = Some shape.

(** The input shapes of a layer with data shape [d] and [f] input features. *)
Definition inferred (p : Param) (d : TShape) (f : Z) : list TShape :=
  if decide (no_bias p = 0)
  then [d; Shape2 (num_hidden p) f; Shape1 (num_hidden p)]
  else [d; Shape2 (num_hidden p) f].

(** ** Dependency declaration, lines 157-162 *)

(** [FullyConnectSymbol::DeclareBackwardDependency]; [None] stands for an
    index out of range.  [out_data] is a parameter the body never uses. *)
Definition DeclareBackwardDependency
    (out_grad in_data out_data : list Z) : option (list Z) :=
  g ← out_grad !! kOut;
  d ← in_data !! kData;
  w ← in_data !! kWeight;
  Some [g; d; w].


(** ** Tensors *)

(** [real_t] with its addition and multiplication.  No law is assumed of
    them, so that machine floating point is an instance. *)
Class Real : Type := {
  real_t : Type;
  rzero : real_t;
  radd : real_t → real_t → real_t;
  rmul : real_t → real_t → real_t
}.

(** Modelled from the spec: the write modes ([OpReqType], declared outside
    src/) are Overwrite ([kWriteTo], line 47), WriteInPlace ([kWriteInplace],
    line 83) and AccumulateAdd ([kAddTo]). *)
Inductive OpReqType : Type := kWriteTo | kWriteInplace | kAddTo.

#[global] Instance OpReqType_eq_dec : EqDecision OpReqType.
Proof. solve_decision. Defined.

(** [TShape::FlatTo2D], the extents of the 2-D view of a buffer of a given
    shape, is declared outside src/ and is left as a parameter of the
    operator: the contents of the buffer are the same whatever the view. *)
Class Flat2D : Type := flat_shape : TShape → nat * nat.

Section Operator.
Context {R : Real} {F : Flat2D}.

(** Modelled from the spec: [TBlob] (declared outside src/) is a buffer of
    [real_t] with a shape; the contents are kept in row-major order. *)
Record TBlob : Type := { shape_ : TShape; dptr_ : list real_t }.

(** [mshadow::Tensor<xpu, 2>] and [mshadow::Tensor<xpu, 1>] views of a
    buffer: extents and row-major contents. *)
Record Tensor2 : Type := { size0 : nat; size1 : nat; dptr2 : list real_t }.
Record Tensor1 : Type := { size : nat; dptr1 : list real_t }.

(** mshadow expressions ([dot], [T], [repmat], [sum_rows] belong to the
    tensor library, outside this repository): the extents, whether the shape
    check of the expression passes, and the element at each index. *)
Record Exp2 : Type :=
  { ok2 : bool; rows : nat; cols : nat; Eval2 : nat → nat → real_t }.
Record Exp1 : Type := { ok1 : bool; len : nat; Eval1 : nat → real_t }.

(** [TBlob::FlatTo2D]: the buffer seen as a matrix of the extents
    [flat_shape] gives, over the same contents. *)
Definition FlatTo2D (b : TBlob) : Tensor2 :=
  {| size0 := (flat_shape (shape_ b)).1;
     size1 := (flat_shape (shape_ b)).2;
     dptr2 := dptr_ b |}.

(** Modelled from the spec: [TBlob::get<xpu, 2, real_t>] is declared outside
    src/.  It views a buffer of rank 2, such as the weight of shape
    [hiddenUnits, inFeatures], as the matrix of these extents; a buffer of
    another rank has no such view and the call fails. *)
Definition get2 {S} (b : TBlob) : M S Tensor2 :=
  match shape_ b with
  | [n; m] =>
      mret {| size0 := Z.to_nat n; size1 := Z.to_nat m; dptr2 := dptr_ b |}
  | _ => λ s, Fatal s
  end.

(** Modelled from the spec: [TBlob::get<xpu, 1, real_t>], likewise for a
    buffer of rank 1 such as the bias of shape [hiddenUnits]. *)
Definition get1 {S} (b : TBlob) : M S Tensor1 :=
  match shape_ b with
  | [n] => mret {| size := Z.to_nat n; dptr1 := dptr_ b |}
  | _ => λ s, Fatal s
  end.

(** Element [(i, j)] of a matrix and element [j] of a vector. *)
Definition at2 (t : Tensor2) (i j : nat) : real_t :=
  nth (i * size1 t + j) (dptr2 t) rzero.
Definition at1 (t : Tensor1) (j : nat) : real_t := nth j (dptr1 t) rzero.

(** A tensor used as an expression. *)
Definition tensor2 (t : Tensor2) : Exp2 :=
  {| ok2 := true; rows := size0 t; cols := size1 t; Eval2 := at2 t |}.

(** [f 0 + (f 1 + ... (f (n-1) + 0))] *)
Definition sum_upto (n : nat) (f : nat → real_t) : real_t :=
  foldr (λ k acc, radd (f k) acc) rzero (seq 0 n).

(** [A.T()] *)
Definition T (a : Exp2) : Exp2 :=
  {| ok2 := ok2 a; rows := cols a; cols := rows a;
     Eval2 := λ i j, Eval2 a j i |}.

(** [dot(A, B)]: the inner extents have to agree. *)
Definition dot (a b : Exp2) : Exp2 :=
  {| ok2 := ok2 a && ok2 b && bool_decide (cols a = rows b);
     rows := rows a; cols := cols b;
     Eval2 := λ i j, sum_upto (cols a) (λ k, rmul (Eval2 a i k) (Eval2 b k j)) |}.

(** [repmat(v, n)]: [n] rows, each equal to [v]. *)
Definition repmat (v : Tensor1) (n : nat) : Exp2 :=
  {| ok2 := true; rows := n; cols := size v; Eval2 := λ _ j, at1 v j |}.

(** [sum_rows(A)]: the sum of the rows of [A], one entry per column. *)
Definition sum_rows (a : Exp2) : Exp1 :=
  {| ok1 := ok2 a; len := cols a;
     Eval1 := λ j, sum_upto (rows a) (λ i, Eval2 a i j) |}.

(** Row-major contents of an [n] by [m] matrix and of a vector. *)
Definition tabulate2 (n m : nat) (f : nat → nat → real_t) : list real_t :=
  flat_map (λ i, map (f i) (seq 0 m)) (seq 0 n).
Definition tabulate1 (n : nat) (f : nat → real_t) : list real_t :=
  map f (seq 0 n).

(** The two savers of mshadow: [dst = e] and [dst += e]. *)
Definition saveto (old new : real_t) : real_t := new.
Definition plusto (old new : real_t) : real_t := radd old new.

(** Assignment of an expression to the [n] by [m] view of buffer [k] of the
    written list: the shapes are checked, then every element is saved. *)
Definition save2 (sv : real_t → real_t → real_t) (k n m : nat) (e : Exp2)
    : M (list TBlob) unit :=
  CHECK (ok2 e && bool_decide (rows e = n) && bool_decide (cols e = m));;
  bufs ← get_state;
  b ← vec_at bufs k;
  put_state (<[k :=
    {| shape_ := shape_ b;
       dptr_ := tabulate2 n m (λ i j,
                  sv (nth (i * m + j) (dptr_ b) rzero) (Eval2 e i j)) |}]> bufs).

Definition save1 (sv : real_t → real_t → real_t) (k n : nat) (e : Exp1)
    : M (list TBlob) unit :=
  CHECK (ok1 e && bool_decide (len e = n));;
  bufs ← get_state;
  b ← vec_at bufs k;
  put_state (<[k :=
    {| shape_ := shape_ b;
       dptr_ := tabulate1 n (λ j, sv (nth j (dptr_ b) rzero) (Eval1 e j)) |}]> bufs).

(** Modelled from the spec: [Assign] is defined in
    [static_operator_common.h], which is not under src/.  The write mode
    governs how the result is written: Overwrite replaces the buffer's
    contents, AccumulateAdd adds into the existing contents, WriteInPlace
    writes into a buffer that aliases an input. *)
Definition Assign2 (k : nat) (out : Tensor2) (req : OpReqType) (e : Exp2)
    : M (list TBlob) unit :=
  match req with
  | kWriteTo | kWriteInplace => save2 saveto k (size0 out) (size1 out) e
  | kAddTo => save2 plusto k (size0 out) (size1 out) e
  end.

(** [Assign] at a rank-1 target. *)
Definition Assign1 (k : nat) (out : Tensor1) (req : OpReqType) (e : Exp1)
    : M (list TBlob) unit :=
  match req with
  | kWriteTo | kWriteInplace => save1 saveto k (size out) e
  | kAddTo => save1 plusto k (size out) e
  end.

(** ** The operator, lines 40-95 *)

(** [FullyConnectOp::Forward].  The state is [out_data], the only list whose
    buffers the method writes; [in_data] is read only. *)
Definition Forward (p : Param) (req : list OpReqType) (in_data : list TBlob)
    : M (list TBlob) unit :=
  r ← vec_at req kOut;
  CHECK (bool_decide (r = kWriteTo));;
  CHECK (bool_decide (length in_data = expected p));;
  out_data ← get_state;
  CHECK (bool_decide (length out_data = 1%nat));;
  d ← vec_at in_data kData;
  let data := FlatTo2D d in
  w ← vec_at in_data kWeight;
  wmat ← get2 w;
  o ← vec_at out_data kOut;
  let out := FlatTo2D o in
  (* out = dot(data, wmat.T()); *)
  save2 saveto kOut (size0 out) (size1 out)
    (dot (tensor2 data) (T (tensor2 wmat)));;
  if decide (no_bias p = 0) then
    b ← vec_at in_data kBias;
    bias ← get1 b;
    (* out += repmat(bias, data.size(0)); *)
    save2 plusto kOut (size0 out) (size1 out) (repmat bias (size0 data))
  else mret tt.

(** [FullyConnectOp::Backward].  The state is [in_grad]; [out_grad],
    [in_data] and [out_data] are read only, and [out_data] is never used. *)
Definition Backward (p : Param) (out_grad in_data out_data : list TBlob)
    (req : list OpReqType) : M (list TBlob) unit :=
  CHECK (bool_decide (length out_grad = 1%nat));;
  in_grad ← get_state;
  CHECK (bool_decide (length in_data = expected p)
         && bool_decide (length in_grad = expected p));;
  CHECK (bool_decide (length req = expected p));;
  d ← vec_at in_data kData;
  let data := FlatTo2D d in
  w ← vec_at in_data kWeight;
  wmat ← get2 w;
  g ← vec_at out_grad kOut;
  let grad := FlatTo2D g in
  rw ← vec_at req kWeight;
  CHECK (negb (bool_decide (rw = kWriteInplace)));;
  (* gradient of weight *)
  gw ← vec_at in_grad kWeight;
  gwmat ← get2 gw;
  rw ← vec_at req kWeight;
  Assign2 kWeight gwmat rw (dot (T (tensor2 grad)) (tensor2 data));;
  (* gradient of bias *)
  (if decide (no_bias p = 0) then
     in_grad ← get_state;
     gb ← vec_at in_grad kBias;
     gbias ← get1 gb;
     rb ← vec_at req kBias;
     Assign1 kBias gbias rb (sum_rows (tensor2 grad))
   else mret tt);;
  (* gradient of data *)
  in_grad ← get_state;
  gd ← vec_at in_grad kData;
  let gdata := FlatTo2D gd in
  rd ← vec_at req kData;
  Assign2 kData gdata rd (dot (tensor2 grad) (tensor2 wmat)).

(** ** Vocabulary of the statements *)

(** Element [k] of a buffer. *)
Definition elem (b : TBlob) (k : nat) : real_t := nth k (dptr_ b) rzero.

(** The buffer is seen by [FlatTo2D] as an [n] by [m] matrix. *)
Definition views_as (b : TBlob) (n m : nat) : Prop :=
  size0 (FlatTo2D b) = n ∧ size1 (FlatTo2D b) = m.

(** The buffer has the rank-2 shape [n, m], the rank-1 shape [n]. *)
Definition matrix_of (b : TBlob) (n m : nat) : Prop :=
  shape_ b = [Z.of_nat n; Z.of_nat m].
Definition vector_of (b : TBlob) (n : nat) : Prop :=
  shape_ b = [Z.of_nat n].

(** The spec's write-mode rule, in its words: Overwrite replaces the
    contents, AccumulateAdd adds into them, WriteInPlace writes the result
    into the buffer that aliases an input. *)
Definition written (req : OpReqType) (old new : real_t) : real_t :=
  match req with
  | kWriteTo | kWriteInplace => new
  | kAddTo => radd old new
  end.

End Operator.


(** ** A concrete layer *)

(** Integers as elements, to run the operator. *)
#[global] Instance RealZ : Real :=
  {| real_t := Z; rzero := 0; radd := Z.add; rmul := Z.mul |}.

(** Product of extents. *)
Definition Size (s : list Z) : nat := Z.to_nat (foldr Z.mul 1 s).

(** Modelled from the spec: the data is viewed as a 2-D matrix of shape
    [batch, inFeatures] by collapsing all trailing non-batch dimensions. *)
#[global] Instance flat_batch : Flat2D := λ s,
  match s with
  | [] => (0%nat, 0%nat)
  | d :: r => (Z.to_nat d, Size r)
  end.

(** Two hidden units over three features, batch of two. *)
Definition fc_bias : Param := {| num_hidden := 2; no_bias := 0 |}.
Definition fc_nobias : Param := {| num_hidden := 2; no_bias := 1 |}.
Definition x_data : TBlob :=
  {| shape_ := [2; 1; 1; 3]; dptr_ := [1; 2; 3; 4; 5; 6] |}.
Definition x_weight : TBlob :=
  {| shape_ := [2; 3]; dptr_ := [1; 0; 0; 0; 1; 0] |}.
Definition x_bias : TBlob := {| shape_ := [2]; dptr_ := [10; 20] |}.
Definition x_out : TBlob :=
  {| shape_ := [2; 1; 1; 2]; dptr_ := [7; 7; 7; 7] |}.
Definition x_grad : TBlob :=
  {| shape_ := [2; 1; 1; 2]; dptr_ := [1; 1; 1; 1] |}.
Definition g_data : TBlob :=
  {| shape_ := [2; 1; 1; 3]; dptr_ := [100; 100; 100; 100; 100; 100] |}.
Definition g_weight : TBlob :=
  {| shape_ := [2; 3]; dptr_ := [100; 100; 100; 100; 100; 100] |}.
Definition g_bias : TBlob := {| shape_ := [2]; dptr_ := [100; 100] |}.

(** Shape vectors for a layer of five hidden units. *)
Definition fc5 : Param := {| num_hidden := 5; no_bias := 0 |}.
Definition shapes_unknown : Shapes :=
  {| in_shape := [[2; 1; 1; 3]; []; []]; out_shape := [] |}.
Definition shapes_inferred : Shapes :=
  {| in_shape := [[2; 1; 1; 3]; [5; 3]; [5]]; out_shape := [[2; 1; 1; 5]] |}.
Definition shapes_rank3 : Shapes :=
  {| in_shape := [[2; 1; 3]; []; []]; out_shape := [] |}.
Definition shapes_bad_weight : Shapes :=
  {| in_shape := [[2; 1; 1; 3]; [5; 4]; []]; out_shape := [] |}.
Definition shapes_stale_output : Shapes :=
  {| in_shape := [[2; 1; 1; 3]; [5; 3]; [5]]; out_shape := [[9; 9; 9; 9]] |}.

(** ** The rest of the symbol, lines 112-170 *)

(** [FullyConnectSymbol::ListArguments], lines 112-118. *)
Definition ListArguments (p : Param) : list string :=
  if decide (no_bias p = 0)
  then ["data"; "weight"; "bias"]
  else ["data"; "weight"].

(** [FullyConnectSymbol::Copy], lines 147-151: the new symbol holds a copy
    of the parameters, which are all a symbol holds. *)
Definition Copy (p : Param) : Param :=
  {| num_hidden := num_hidden p; no_bias := no_bias p |}.

(** [FullyConnectSymbol::TypeString], lines 153-155. *)
Definition TypeString : string := "FullyConnected".

(** [FullyConnectSymbol::BackwardInplaceOption], lines 164-170; [None]
    stands for an index out of range.  [out_grad] and [out_data] are
    parameters the body never uses. *)
Definition BackwardInplaceOption
    (out_grad in_data out_data in_grad : list Z) : option (list (Z * Z)) :=
  g ← in_grad !! kData;
  d ← in_data !! kData;
  Some [(g, d)].

(** What the layer computes on the concrete buffers: the output with bias,
    and the three gradients of an all-ones output gradient in Overwrite
    mode. *)
Definition y_out : TBlob :=
  {| shape_ := [2; 1; 1; 2]; dptr_ := [11; 22; 14; 25] |}.
Definition dx_data : TBlob :=
  {| shape_ := [2; 1; 1; 3]; dptr_ := [1; 1; 0; 1; 1; 0] |}.
Definition dx_weight : TBlob :=
  {| shape_ := [2; 3]; dptr_ := [5; 7; 9; 5; 7; 9] |}.
Definition dx_bias : TBlob := {| shape_ := [2]; dptr_ := [2; 2] |}.

(** * Properties *)

(** ** Shape inference *)

(** Unfolds the monadic operations of [InferShape]. *)
Ltac unfold_M :=
  unfold InferShape, ShapeAssignCheck, in_shape_at, vec_at, CHECK,
    set_in_shape, set_out_shape, get_state, put_state, mbind, M_bind, mret, M_ret.

(** What a successful run tells about the input, and the state it leaves. *)
Lemma InferShape_Ok_inv (p : Param) (ins outs : list TShape) (r : bool) (s' : Shapes) :
  InferShape p {| in_shape := ins; out_shape := outs |} = Ok r s' →
  r = true ∧ length ins = expected p ∧ num_hidden p > 0 ∧
  ∃ b x y f,
    ins !! kData = Some [b; x; y; f] ∧
    fits ins kWeight (Shape2 (num_hidden p) f) ∧
    (no_bias p = 0 → fits ins kBias (Shape1 (num_hidden p))) ∧
    s' = {| in_shape := inferred p [b; x; y; f] f;
            out_shape := [[b; x; y; num_hidden p]] |}.
Proof.
  unfold expected, inferred, fits, Shape1, Shape2, kData, kWeight, kBias.
  destruct ins as [|d [|w [|bs [|? ?]]]];
    unfold_M; cbn; intros H;
    repeat (case_decide || case_bool_decide; simplify_eq/=); try done.
  all: destruct d as [|b [|x [|y [|f [|? ?]]]]]; simplify_eq/=.
  all: repeat (case_decide || case_bool_decide; simplify_eq/=); try done.
  all: try (destruct w; simplify_eq/=).
  all: try (destruct bs; simplify_eq/=).
  all: repeat (case_decide || case_bool_decide; simplify_eq/=); try done.
  all: try (repeat split; try lia; eexists _, _, _, _; repeat split; eauto; done).
Qed.

(** The inputs on which InferShape succeeds. *)
Lemma InferShape_Ok_intro (p : Param) (ins outs : list TShape) (b x y f : Z) :
  num_hidden p > 0 →
  length ins = expected p →
  ins !! kData = Some [b; x; y; f] →
  fits ins kWeight (Shape2 (num_hidden p) f) →
  (no_bias p = 0 → fits ins kBias (Shape1 (num_hidden p))) →
  InferShape p {| in_shape := ins; out_shape := outs |} =
    Ok true {| in_shape := inferred p [b; x; y; f] f;
               out_shape := [[b; x; y; num_hidden p]] |}.
Proof.
  unfold expected, inferred, fits, Shape1, Shape2, kData, kWeight, kBias.
  intros Hh Hlen Hd Hw Hb.
  destruct (decide (no_bias p = 0)) as [Hnb|Hnb].
  - specialize (Hb Hnb).
    destruct ins as [|d [|w [|bs [|? ?]]]]; simplify_eq/=.
    destruct Hw as [?|?], Hb as [?|?]; simplify_eq/=;
      unfold_M; cbn;
      repeat (case_decide || case_bool_decide; simplify_eq/=); try done; lia.
  - clear Hb.
    destruct ins as [|d [|w [|? ?]]]; simplify_eq/=.
    destruct Hw as [?|?]; simplify_eq/=;
      unfold_M; cbn;
      repeat (case_decide || case_bool_decide; simplify_eq/=); try done; lia.
Qed.

(** The size checks come before every indexing. *)
Lemma InferShape_defined (p : Param) (st : Shapes) :
  InferShape p st ≠ Undefined.
Proof.
  destruct st as [ins outs].
  destruct ins as [|d [|w [|bs [|? ?]]]];
    unfold_M; cbn;
    repeat (case_decide || case_bool_decide; simplify_eq/=); try done.
  all: destruct d as [|b [|x [|y [|f [|? ?]]]]]; simplify_eq/=.
  all: try (destruct w; simplify_eq/=).
  all: try (destruct bs; simplify_eq/=).
  all: repeat (case_decide || case_bool_decide; simplify_eq/=); try done.
Qed.

(** InferShape returns or fails a check. *)
Lemma InferShape_Ok_or_Fatal (p : Param) (st : Shapes) :
  (∃ r s', InferShape p st = Ok r s') ∨ (∃ s', InferShape p st = Fatal s').
Proof.
  pose proof (InferShape_defined p st) as H.
  destruct (InferShape p st); eauto. done.
Qed.

(** Known input slots are the same in the state a run leaves, whether it
    returned or failed. *)
Lemma InferShape_frame (p : Param) (ins outs : list TShape) (s' : Shapes) :
  final_state (InferShape p {| in_shape := ins; out_shape := outs |}) = Some s' →
  length (in_shape s') = length ins ∧
  in_shape s' !! kData = ins !! kData ∧
  ∀ i t, ins !! i = Some t → known t → in_shape s' !! i = Some t.
Proof.
  unfold known, ndim, kData.
  destruct ins as [|d [|w [|bs [|? ?]]]];
    unfold_M; cbn;
    repeat (case_decide || case_bool_decide; simplify_eq/=);
    try (intros; simplify_eq/=; done).
  all: destruct d as [|b [|x [|y [|f [|? ?]]]]]; simplify_eq/=.
  all: try (destruct w; simplify_eq/=).
  all: try (destruct bs; simplify_eq/=).
  all: repeat (case_decide || case_bool_decide; simplify_eq/=);
    try (intros; simplify_eq/=; done).
  all: intros; simplify_eq/=; repeat split; try done.
  all: intros [|[|[|i]]] t Ht Hk; simplify_eq/=; done.
Qed.

(** A failed run has not touched the output vector. *)
Lemma InferShape_Fatal_out_shape (p : Param) (ins outs : list TShape) (s' : Shapes) :
  InferShape p {| in_shape := ins; out_shape := outs |} = Fatal s' →
  out_shape s' = outs.
Proof.
  destruct ins as [|d [|w [|bs [|? ?]]]];
    unfold_M; cbn;
    repeat (case_decide || case_bool_decide; simplify_eq/=);
    try (intros; simplify_eq/=; done).
  all: destruct d as [|b [|x [|y [|f [|? ?]]]]]; simplify_eq/=.
  all: try (destruct w; simplify_eq/=).
  all: try (destruct bs; simplify_eq/=).
  all: repeat (case_decide || case_bool_decide; simplify_eq/=);
    try (intros; simplify_eq/=; done).
Qed.

(** C3: with a positive hidden-unit count, the required number of input
    slots and a rank-4 data shape [b, x, y, f], InferShape applies the
    fill-or-verify rule to the weight slot ([num_hidden, f]) and, when biased,
    to the bias slot ([num_hidden]): when each of them is unknown or already
    equal it succeeds, the slots hold the derived shapes and the one output
    shape is the data shape with its last extent replaced by [num_hidden]; on
    a mismatch it fails. *)
Theorem InferShape_fill_or_verify (p : Param) (ins outs : list TShape)
    (b x y f : Z) :
  num_hidden p > 0 →
  length ins = expected p →
  ins !! kData = Some [b; x; y; f] →
  let h := num_hidden p in
  let consistent :=
    fits ins kWeight [h; f] ∧ (no_bias p = 0 → fits ins kBias [h]) in
  (consistent →
     InferShape p {| in_shape := ins; out_shape := outs |} =
       Ok true
         {| in_shape := if decide (no_bias p = 0)
                        then [[b; x; y; f]; [h; f]; [h]]
                        else [[b; x; y; f]; [h; f]];
            out_shape := [[b; x; y; h]] |}) ∧
  (¬ consistent →
     ∃ s', InferShape p {| in_shape := ins; out_shape := outs |} = Fatal s').
Proof.
  intros Hh Hlen Hd h consistent. split.
  - intros [Hw Hb]. by apply InferShape_Ok_intro.
  - intros Hno.
    destruct (InferShape_Ok_or_Fatal p {| in_shape := ins; out_shape := outs |})
      as [(r & s' & HOk)|HF]; [|done].
    exfalso. apply Hno.
    apply InferShape_Ok_inv in HOk as (_ & _ & _ & b' & x' & y' & f' & Hd' & Hw & Hb & _).
    rewrite Hd in Hd'. by simplify_eq.
Qed.

Lemma InferShape_fill_or_verify_witness :
  InferShape fc5 shapes_unknown = Ok true shapes_inferred ∧
  ∃ s', InferShape fc5 shapes_bad_weight = Fatal s'.
Proof.
  split.
  - apply (InferShape_fill_or_verify fc5 [[2; 1; 1; 3]; []; []] [] 2 1 1 3);
      [reflexivity | reflexivity | reflexivity |].
    split; [by left | intros _; by left].
  - apply (InferShape_fill_or_verify fc5 [[2; 1; 1; 3]; [5; 4]; []] [] 2 1 1 3);
      [reflexivity | reflexivity | reflexivity |].
    intros [[Hw|Hw] _]; discriminate Hw.
Defined.

(** C4: InferShape fails when the data slot does not hold a known rank-4
    shape; that is, when it succeeds the data shape has exactly four extents
    and is known (it is not the unknown shape, so each of the four extents is
    there). *)
Theorem InferShape_requires_rank4 (p : Param) (ins outs : list TShape) :
  (∀ r s',
     InferShape p {| in_shape := ins; out_shape := outs |} = Ok r s' →
     ∃ d, ins !! kData = Some d ∧ ndim d = 4%nat ∧ known d ∧
          ∀ i, (i < 4)%nat → is_Some (d !! i)) ∧
  ((∀ d, ins !! kData = Some d → ndim d ≠ 4%nat ∨ ¬ known d) →
     ∃ s', InferShape p {| in_shape := ins; out_shape := outs |} = Fatal s').
Proof.
  split.
  - intros r s' HOk.
    apply InferShape_Ok_inv in HOk as (_ & _ & _ & b & x & y & f & Hd & _).
    exists [b; x; y; f]. repeat split; [done..|].
    intros i Hi. apply lookup_lt_is_Some. cbn. lia.
  - intros Hbad.
    destruct (InferShape_Ok_or_Fatal p {| in_shape := ins; out_shape := outs |})
      as [(r & s' & HOk)|HF]; [|done].
    apply InferShape_Ok_inv in HOk as (_ & _ & _ & b & x & y & f & Hd & _).
    destruct (Hbad _ Hd) as [Hn|Hn]; [done|]. by destruct Hn.
Qed.

Lemma InferShape_requires_rank4_witness :
  (∃ d, in_shape shapes_unknown !! kData = Some d ∧ ndim d = 4%nat ∧ known d ∧
        ∀ i, (i < 4)%nat → is_Some (d !! i)) ∧
  ∃ s', InferShape fc5 shapes_rank3 = Fatal s'.
Proof.
  split.
  - apply (proj1 (InferShape_requires_rank4 fc5 [[2; 1; 1; 3]; []; []] [])
             true shapes_inferred).
    reflexivity.
  - apply (proj2 (InferShape_requires_rank4 fc5 [[2; 1; 3]; []; []] [])).
    intros d Hd. left. cbn in Hd. injection Hd as <-. cbn. lia.
Defined.

(** C8: InferShape is idempotent.  With a positive hidden-unit count and
    data shape [b, 1, 1, f], a successful run leaves weight [num_hidden, f],
    bias [num_hidden] (if biased) and output [b, 1, 1, num_hidden]; running
    it again on exactly these vectors succeeds and leaves them as they are. *)
Theorem InferShape_idempotent (p : Param) (ins outs : list TShape)
    (b f : Z) (s1 : Shapes) :
  num_hidden p > 0 →
  ins !! kData = Some [b; 1; 1; f] →
  InferShape p {| in_shape := ins; out_shape := outs |} = Ok true s1 →
  let h := num_hidden p in
  s1 = {| in_shape := if decide (no_bias p = 0)
                      then [[b; 1; 1; f]; [h; f]; [h]]
                      else [[b; 1; 1; f]; [h; f]];
          out_shape := [[b; 1; 1; h]] |} ∧
  InferShape p s1 = Ok true s1.
Proof.
  intros Hh Hd HOk h.
  apply InferShape_Ok_inv in HOk as (_ & _ & _ & b' & x' & y' & f' & Hd' & _ & _ & ->).
  rewrite Hd in Hd'. simplify_eq. split; [done|].
  apply InferShape_Ok_intro; try done.
  - unfold inferred, expected. by case_decide.
  - unfold inferred. by case_decide.
  - right. unfold inferred. by case_decide.
  - intros Hnb. right. unfold inferred. by case_decide.
Qed.

Lemma InferShape_idempotent_witness :
  shapes_inferred = shapes_inferred ∧
  InferShape fc5 shapes_inferred = Ok true shapes_inferred.
Proof.
  apply (InferShape_idempotent fc5 [[2; 1; 1; 3]; []; []] [] 2 3 shapes_inferred);
    [reflexivity | reflexivity | reflexivity].
Defined.

(** C9, as the claim states it, fails: a caller-supplied output shape that is
    known and conflicts with the derived one is not rejected.  InferShape
    succeeds and overwrites it. *)
Lemma InferShape_overwrites_known_output :
  known [9; 9; 9; 9] ∧
  [9; 9; 9; 9] ≠ [2; 1; 1; 5] ∧
  out_shape shapes_stale_output = [[9; 9; 9; 9]] ∧
  InferShape fc5 shapes_stale_output = Ok true shapes_inferred ∧
  out_shape shapes_inferred = [[2; 1; 1; 5]].
Proof. repeat split; done. Qed.

(** C9, amended: InferShape never changes an input shape slot that is
    already known, and never the data slot, whether it succeeds or fails; it
    fails when a known weight slot, or a known bias slot of a biased layer,
    differs from the derived shape.  The output vector is not compared with
    anything: on success it holds the derived output shape alone, whatever
    the caller had put there, and on failure it is as the caller left it. *)
Theorem InferShape_keeps_known_inputs (p : Param) (ins outs : list TShape) :
  let o := InferShape p {| in_shape := ins; out_shape := outs |} in
  (∀ s', final_state o = Some s' →
     length (in_shape s') = length ins ∧
     in_shape s' !! kData = ins !! kData ∧
     ∀ i t, ins !! i = Some t → known t → in_shape s' !! i = Some t) ∧
  (∀ b x y f t,
     ins !! kData = Some [b; x; y; f] →
     (ins !! kWeight = Some t ∧ known t ∧ t ≠ [num_hidden p; f]) ∨
     (no_bias p = 0 ∧ ins !! kBias = Some t ∧ known t ∧ t ≠ [num_hidden p]) →
     ∃ s', o = Fatal s') ∧
  (∀ r s', o = Ok r s' →
     ∃ b x y f, ins !! kData = Some [b; x; y; f] ∧
                out_shape s' = [[b; x; y; num_hidden p]]) ∧
  (∀ s', o = Fatal s' → out_shape s' = outs).
Proof.
  intros o. repeat split.
  - by apply (InferShape_frame p ins outs s').
  - by apply (InferShape_frame p ins outs s').
  - by apply (InferShape_frame p ins outs s').
  - intros b x y f t Hd Hconf.
    destruct (InferShape_Ok_or_Fatal p {| in_shape := ins; out_shape := outs |})
      as [(r & s' & HOk)|HF]; [|done].
    exfalso.
    apply InferShape_Ok_inv in HOk as (_ & _ & _ & b' & x' & y' & f' & Hd' & Hw & Hb & _).
    rewrite Hd in Hd'. simplify_eq.
    unfold known, ndim, fits, Shape1, Shape2, TShape in *.
    destruct Hconf as [(Ht & Hk & Hne)|(Hnb & Ht & Hk & Hne)].
    + destruct Hw as [Hw|Hw]; rewrite Ht in Hw; injection Hw as ->;
        [by apply Hk | by apply Hne].
    + destruct (Hb Hnb) as [Hb'|Hb']; rewrite Ht in Hb'; injection Hb' as ->;
        [by apply Hk | by apply Hne].
  - intros r s' HOk.
    apply InferShape_Ok_inv in HOk as (_ & _ & _ & b & x & y & f & Hd & _ & _ & ->).
    by exists b, x, y, f.
  - intros s' HF. by apply (InferShape_Fatal_out_shape p ins).
Qed.

Lemma InferShape_keeps_known_inputs_witness :
  in_shape shapes_inferred !! kWeight = Some [5; 3] ∧
  (∃ s', InferShape fc5 shapes_bad_weight = Fatal s') ∧
  ∃ b x y f, in_shape shapes_stale_output !! kData = Some [b; x; y; f] ∧
             out_shape shapes_inferred = [[b; x; y; 5]].
Proof.
  split; [|split].
  - apply (proj1 (InferShape_keeps_known_inputs fc5
                    [[2; 1; 1; 3]; [5; 3]; [5]] [[9; 9; 9; 9]]) shapes_inferred);
      [reflexivity | reflexivity | cbn; unfold known; cbn; lia].
  - apply (proj1 (proj2 (InferShape_keeps_known_inputs fc5
                    [[2; 1; 1; 3]; [5; 4]; []] [])) 2 1 1 3 [5; 4]);
      [reflexivity|].
    left. split; [reflexivity|]. split; [unfold known; cbn; lia | discriminate].
  - apply (proj1 (proj2 (proj2 (InferShape_keeps_known_inputs fc5
                    [[2; 1; 1; 3]; [5; 3]; [5]] [[9; 9; 9; 9]]))) true).
    reflexivity.
Defined.

(** C10: whenever InferShape returns, it returns true; every failure is a
    failed check, none is a false result. *)
Theorem InferShape_returns_true (p : Param) (st s' : Shapes) (r : bool) :
  InferShape p st = Ok r s' → r = true.
Proof.
  destruct st as [ins outs]. intros HOk.
  by apply InferShape_Ok_inv in HOk as (-> & _).
Qed.

Lemma InferShape_returns_true_witness :
  InferShape fc5 shapes_unknown = Ok true shapes_inferred ∧ true = true.
Proof.
  split; [reflexivity|].
  apply (InferShape_returns_true fc5 shapes_unknown shapes_inferred true).
  reflexivity.
Defined.

(** ** Dependency declaration *)

(** C7: given index lists that have the slots the operator declares (an
    output gradient, a data and a weight input), DeclareBackwardDependency
    returns exactly three entries, in this order: the output-gradient index,
    the data index, the weight index.  The result does not depend on the
    forward output-value indices, and each entry comes from the gradient or
    the input list. *)
Theorem DeclareBackwardDependency_entries
    (out_grad in_data out_data : list Z) (g d w : Z) :
  out_grad !! kOut = Some g →
  in_data !! kData = Some d →
  in_data !! kWeight = Some w →
  DeclareBackwardDependency out_grad in_data out_data = Some [g; d; w] ∧
  (∀ out_data',
     DeclareBackwardDependency out_grad in_data out_data' = Some [g; d; w]) ∧
  (∀ e, e ∈ [g; d; w] → e ∈ out_grad ∨ e ∈ in_data).
Proof.
  intros Hg Hd Hw. unfold DeclareBackwardDependency.
  rewrite Hg, Hd, Hw. cbn. split; [done|]. split; [done|].
  intros e He.
  apply elem_of_cons in He as [->|He]; [left; by eapply list_elem_of_lookup_2|].
  apply elem_of_cons in He as [->|He]; [right; by eapply list_elem_of_lookup_2|].
  apply list_elem_of_singleton in He as ->. right. by eapply list_elem_of_lookup_2.
Qed.

Lemma DeclareBackwardDependency_entries_witness :
  DeclareBackwardDependency [7] [1; 2; 3] [9] = Some [7; 1; 2] ∧
  (∀ out_data', DeclareBackwardDependency [7] [1; 2; 3] out_data' = Some [7; 1; 2]) ∧
  (∀ e, e ∈ [7; 1; 2] → e ∈ [7] ∨ e ∈ [1; 2; 3]).
Proof.
  apply (DeclareBackwardDependency_entries [7] [1; 2; 3] [9] 7 1 2);
    reflexivity.
Defined.

(** ** Row-major contents *)

Section TensorFacts.
Context {R : Real}.

Lemma length_flat_rows (m : nat) (f : nat → nat → real_t) (s n : nat) :
  length (flat_map (λ i, map (f i) (seq 0 m)) (seq s n)) = (n * m)%nat.
Proof.
  revert s. induction n as [|n IH]; intros s; cbn [seq flat_map]; [done|].
  rewrite length_app, length_map, length_seq, IH. lia.
Qed.

Lemma nth_flat_rows (m : nat) (f : nat → nat → real_t) (d : real_t) (n s i j : nat) :
  (i < n)%nat → (j < m)%nat →
  nth (i * m + j) (flat_map (λ i, map (f i) (seq 0 m)) (seq s n)) d = f (s + i)%nat j.
Proof.
  revert s i. induction n as [|n IH]; intros s i Hi Hj; [lia|].
  cbn [seq flat_map]. destruct i as [|i].
  - rewrite app_nth1 by (rewrite length_map, length_seq; lia).
    rewrite Nat.add_0_r. cbn [Nat.mul Nat.add].
    rewrite (nth_indep _ d (f s 0%nat)) by (rewrite length_map, length_seq; lia).
    rewrite map_nth, seq_nth by lia. done.
  - rewrite app_nth2 by (rewrite length_map, length_seq; lia).
    rewrite length_map, length_seq.
    replace (S i * m + j - m)%nat with (i * m + j)%nat by lia.
    rewrite IH by lia. f_equal. lia.
Qed.

Lemma length_tabulate2 (n m : nat) (f : nat → nat → real_t) :
  length (tabulate2 n m f) = (n * m)%nat.
Proof. apply length_flat_rows. Qed.

Lemma nth_tabulate2 (n m : nat) (f : nat → nat → real_t) (d : real_t) (i j : nat) :
  (i < n)%nat → (j < m)%nat → nth (i * m + j) (tabulate2 n m f) d = f i j.
Proof. intros Hi Hj. unfold tabulate2. by rewrite nth_flat_rows. Qed.

Lemma length_tabulate1 (n : nat) (f : nat → real_t) :
  length (tabulate1 n f) = n.
Proof. unfold tabulate1. by rewrite length_map, length_seq. Qed.

Lemma nth_tabulate1 (n : nat) (f : nat → real_t) (d : real_t) (j : nat) :
  (j < n)%nat → nth j (tabulate1 n f) d = f j.
Proof.
  intros Hj. unfold tabulate1.
  rewrite (nth_indep _ d (f 0%nat)) by (rewrite length_map, length_seq; lia).
  by rewrite map_nth, seq_nth by lia.
Qed.

End TensorFacts.

(** ** The operator *)

Section OperatorFacts.
Context {R : Real} {F : Flat2D}.

#[local] Arguments FlatTo2D : simpl never.

(** Simplification that leaves the tensor operations folded. *)
Ltac mcbn :=
  cbn -[Assign2 Assign1 save2 save1 FlatTo2D tabulate2 tabulate1 dot T
       tensor2 sum_rows repmat].

Lemma dptr2_FlatTo2D (b : TBlob) : dptr2 (FlatTo2D b) = dptr_ b.
Proof. done. Qed.

(** An assignment whose shapes agree writes the tabulated contents. *)
Lemma save2_Ok (sv : real_t → real_t → real_t) (k n m : nat) (e : Exp2)
    (bufs : list TBlob) (b : TBlob) :
  ok2 e = true → rows e = n → cols e = m → bufs !! k = Some b →
  save2 sv k n m e bufs =
    Ok tt (<[k := {| shape_ := shape_ b;
                     dptr_ := tabulate2 n m (λ i j,
                                sv (elem b (i * m + j)) (Eval2 e i j)) |}]> bufs).
Proof.
  intros Hok Hr Hc Hk.
  unfold save2, vec_at, CHECK, get_state, put_state, mbind, M_bind.
  rewrite Hok, Hr, Hc, !bool_decide_eq_true_2 by done. cbn.
  by rewrite Hk.
Qed.

Lemma save1_Ok (sv : real_t → real_t → real_t) (k n : nat) (e : Exp1)
    (bufs : list TBlob) (b : TBlob) :
  ok1 e = true → len e = n → bufs !! k = Some b →
  save1 sv k n e bufs =
    Ok tt (<[k := {| shape_ := shape_ b;
                     dptr_ := tabulate1 n (λ j, sv (elem b j) (Eval1 e j)) |}]> bufs).
Proof.
  intros Hok Hl Hk.
  unfold save1, vec_at, CHECK, get_state, put_state, mbind, M_bind.
  rewrite Hok, Hl, !bool_decide_eq_true_2 by done. cbn.
  by rewrite Hk.
Qed.

(** C1: in a well-formed call (three input slots when biased, two
    otherwise, one output slot written in Overwrite mode) on tensors whose
    extents agree (data seen as an [n] by [f] matrix, weight [h] by [f],
    output seen as [n] by [h], bias of length [h]), Forward succeeds and
    leaves one output buffer, of unchanged shape, whose entry [(i, j)] is the
    product of row [i] of data with row [j] of weight, that is entry [(i, j)]
    of data times the transpose of weight, plus entry [j] of bias when the
    layer is biased.  The inputs are read only: the output list is the whole
    state. *)
Theorem Forward_affine (p : Param) (req : list OpReqType) (d w b o : TBlob) (n f h : nat) :
  req !! kOut = Some kWriteTo →
  views_as d n f →
  matrix_of w h f →
  views_as o n h →
  (no_bias p = 0 → vector_of b h) →
  ∃ o',
    Forward p req (if decide (no_bias p = 0) then [d; w; b] else [d; w]) [o]
      = Ok tt [o'] ∧
    shape_ o' = shape_ o ∧
    length (dptr_ o') = (n * h)%nat ∧
    ∀ i j, (i < n)%nat → (j < h)%nat →
      elem o' (i * h + j) =
        let s := sum_upto f (λ k, rmul (elem d (i * f + k)) (elem w (j * f + k))) in
        if decide (no_bias p = 0) then radd s (elem b j) else s.
Proof.
  intros Hreq [Hd0 Hd1] Hw [Ho0 Ho1] Hb.
  unfold Forward, expected, matrix_of, vector_of in *.
  destruct (decide (no_bias p = 0)) as [Hnb|Hnb].
  - specialize (Hb Hnb).
    unfold vec_at, CHECK, get_state, mbind, M_bind, mret, M_ret, get2, get1.
    rewrite Hreq, !bool_decide_eq_true_2 by done.
    mcbn.
    rewrite Hw. mcbn.
    rewrite (save2_Ok _ _ _ _ _ _ o); cycle 1.
    { cbn. rewrite Nat2Z.id, Hd1. by rewrite bool_decide_eq_true_2. }
    { cbn. congruence. }
    { cbn. by rewrite Nat2Z.id. }
    { done. }
    rewrite Hb. mcbn.
    erewrite save2_Ok; cycle 1.
    { done. }
    { cbn. congruence. }
    { cbn. by rewrite Nat2Z.id. }
    { done. }
    eexists. split; [done|]. cbn -[tabulate2 FlatTo2D].
    rewrite Ho0, Ho1, Hd1, !Nat2Z.id.
    split; [done|]. split; [apply length_tabulate2|].
    intros i j Hi Hj. unfold elem at 1. cbn -[tabulate2].
    rewrite nth_tabulate2 by done. unfold plusto, elem at 1. cbn -[tabulate2].
    rewrite nth_tabulate2 by done. unfold saveto, at1, at2, elem. cbn.
    by rewrite dptr2_FlatTo2D, Hd1.
  - clear Hb.
    unfold vec_at, CHECK, get_state, mbind, M_bind, mret, M_ret, get2, get1.
    rewrite Hreq, !bool_decide_eq_true_2 by done.
    mcbn.
    rewrite Hw. mcbn.
    rewrite (save2_Ok _ _ _ _ _ _ o); cycle 1.
    { cbn. rewrite Nat2Z.id, Hd1. by rewrite bool_decide_eq_true_2. }
    { cbn. congruence. }
    { cbn. by rewrite Nat2Z.id. }
    { done. }
    eexists. split; [done|]. cbn -[tabulate2 FlatTo2D].
    rewrite Ho0, Ho1, Hd1, !Nat2Z.id.
    split; [done|]. split; [apply length_tabulate2|].
    intros i j Hi Hj. unfold elem at 1. cbn -[tabulate2].
    rewrite nth_tabulate2 by done. unfold saveto, at1, at2, elem. cbn.
    by rewrite dptr2_FlatTo2D, Hd1.
Qed.

(** [Assign] combines old and new contents as [written] says. *)
Lemma Assign2_Ok (k : nat) (out : Tensor2) (req : OpReqType) (e : Exp2)
    (bufs : list TBlob) (b : TBlob) :
  ok2 e = true → rows e = size0 out → cols e = size1 out → bufs !! k = Some b →
  Assign2 k out req e bufs =
    Ok tt (<[k := {| shape_ := shape_ b;
                     dptr_ := tabulate2 (size0 out) (size1 out) (λ i j,
                       written req (elem b (i * size1 out + j)) (Eval2 e i j)) |}]> bufs).
Proof. intros. destruct req; by apply save2_Ok. Qed.

Lemma Assign1_Ok (k : nat) (out : Tensor1) (req : OpReqType) (e : Exp1)
    (bufs : list TBlob) (b : TBlob) :
  ok1 e = true → len e = size out → bufs !! k = Some b →
  Assign1 k out req e bufs =
    Ok tt (<[k := {| shape_ := shape_ b;
                     dptr_ := tabulate1 (size out) (λ j,
                       written req (elem b j) (Eval1 e j)) |}]> bufs).
Proof. intros. destruct req; by apply save1_Ok. Qed.

(** Shape side conditions of an assignment. *)
Ltac side :=
  cbn; rewrite ?Nat2Z.id, ?bool_decide_eq_true_2; (done || congruence).

(** C2: in a well-formed call (one output gradient; input values, input
    gradients and write modes of length three when biased, two otherwise;
    weight-gradient mode not WriteInPlace) on tensors whose extents agree,
    Backward succeeds and leaves in the weight-gradient slot the transpose of
    the output gradient times data, in the bias-gradient slot (biased layer
    only) the column sums of the output gradient over the batch, and in the
    data-gradient slot the output gradient times weight, each combined with
    the previous contents by the slot's write mode. *)
Theorem Backward_gradients (p : Param) (out_data : list TBlob)
    (g d w b gd gw gb : TBlob) (rd rw rb : OpReqType) (n f h : nat) :
  rw ≠ kWriteInplace →
  views_as d n f → matrix_of w h f → views_as g n h →
  views_as gd n f → matrix_of gw h f → (no_bias p = 0 → vector_of gb h) →
  ∃ gd' gw' gb',
    Backward p [g] (if decide (no_bias p = 0) then [d; w; b] else [d; w])
      out_data (if decide (no_bias p = 0) then [rd; rw; rb] else [rd; rw])
      (if decide (no_bias p = 0) then [gd; gw; gb] else [gd; gw])
      = Ok tt (if decide (no_bias p = 0) then [gd'; gw'; gb'] else [gd'; gw']) ∧
    shape_ gd' = shape_ gd ∧ shape_ gw' = shape_ gw ∧ shape_ gb' = shape_ gb ∧
    (∀ j k, (j < h)%nat → (k < f)%nat →
       elem gw' (j * f + k) =
         written rw (elem gw (j * f + k))
           (sum_upto n (λ i, rmul (elem g (i * h + j)) (elem d (i * f + k))))) ∧
    (no_bias p = 0 → ∀ j, (j < h)%nat →
       elem gb' j =
         written rb (elem gb j) (sum_upto n (λ i, elem g (i * h + j)))) ∧
    (∀ i k, (i < n)%nat → (k < f)%nat →
       elem gd' (i * f + k) =
         written rd (elem gd (i * f + k))
           (sum_upto h (λ j, rmul (elem g (i * h + j)) (elem w (j * f + k))))).
Proof.
  intros Hrw [Hd0 Hd1] Hw [Hg0 Hg1] [Hgd0 Hgd1] Hgw Hgb.
  unfold Backward, expected, matrix_of, vector_of in *.
  destruct (decide (no_bias p = 0)) as [Hnb|Hnb].
  - specialize (Hgb Hnb).
    unfold vec_at, CHECK, get_state, mbind, M_bind, mret, M_ret, get2, get1.
    rewrite !bool_decide_eq_true_2 by done.
    mcbn.
    rewrite Hw. mcbn.
    rewrite bool_decide_eq_false_2 by done.
    mcbn.
    rewrite Hgw. mcbn.
    rewrite (Assign2_Ok _ _ _ _ _ gw); [|side..].
    mcbn.
    rewrite Hgb. mcbn.
    rewrite (Assign1_Ok _ _ _ _ _ gb); [|side..].
    mcbn.
    rewrite (Assign2_Ok _ _ _ _ _ gd); [|side..].
    eexists _, _, _. split; [done|]. cbn -[tabulate2 tabulate1 FlatTo2D].
    rewrite ?Hgd0, ?Hgd1, ?Hg0, ?Hg1, ?Hd0, ?Hd1, ?Nat2Z.id.
    split; [done|]. split; [done|]. split; [done|].
    split; [|split].
    + intros j k Hj Hk. unfold elem at 1. cbn -[tabulate2].
      rewrite nth_tabulate2 by done. unfold at1, at2, elem, sum_upto. cbn.
      by rewrite !dptr2_FlatTo2D, Hd1, Hg1.
    + intros _ j Hj. unfold elem at 1. cbn -[tabulate1].
      rewrite nth_tabulate1 by done. unfold at1, at2, elem, sum_upto. cbn.
      by rewrite !dptr2_FlatTo2D, Hg1.
    + intros i k Hi Hk. unfold elem at 1. cbn -[tabulate2].
      rewrite nth_tabulate2 by done. unfold at1, at2, elem, sum_upto. cbn.
      by rewrite !dptr2_FlatTo2D, Hg1.
  - clear Hgb.
    unfold vec_at, CHECK, get_state, mbind, M_bind, mret, M_ret, get2, get1.
    rewrite !bool_decide_eq_true_2 by done.
    mcbn.
    rewrite Hw. mcbn.
    rewrite bool_decide_eq_false_2 by done.
    mcbn.
    rewrite Hgw. mcbn.
    rewrite (Assign2_Ok _ _ _ _ _ gw); [|side..].
    mcbn.
    rewrite (Assign2_Ok _ _ _ _ _ gd); [|side..].
    eexists _, _, gb. split; [done|]. cbn -[tabulate2 tabulate1 FlatTo2D].
    rewrite ?Hgd0, ?Hgd1, ?Hg0, ?Hg1, ?Hd0, ?Hd1, ?Nat2Z.id.
    split; [done|]. split; [done|]. split; [done|].
    split; [|split].
    + intros j k Hj Hk. unfold elem at 1. cbn -[tabulate2].
      rewrite nth_tabulate2 by done. unfold at1, at2, elem, sum_upto. cbn.
      by rewrite !dptr2_FlatTo2D, Hd1, Hg1.
    + done.
    + intros i k Hi Hk. unfold elem at 1. cbn -[tabulate2].
      rewrite nth_tabulate2 by done. unfold at1, at2, elem, sum_upto. cbn.
      by rewrite !dptr2_FlatTo2D, Hg1.
Qed.


(** X10: likewise for Backward and the input-gradient buffers: a wrong
    count of output gradients, input values, input gradients or write modes,
    or a WriteInPlace weight mode, makes the call fail with the gradient
    buffers untouched. *)
Lemma Backward_rejects (p : Param) (out_grad in_data out_data : list TBlob)
    (req : list OpReqType) (in_grad : list TBlob) :
  length out_grad ≠ 1%nat ∨ length in_data ≠ expected p ∨
    length in_grad ≠ expected p ∨ length req ≠ expected p ∨
    req !! kWeight = Some kWriteInplace →
  Backward p out_grad in_data out_data req in_grad = Fatal in_grad.
Proof.
  intros Hbad.
  assert (2 ≤ expected p)%nat as Hexp by (unfold expected; case_decide; lia).
  unfold Backward.
  unfold vec_at, CHECK, get_state, mbind, M_bind.
  case_bool_decide as H1; [|done].
  case_bool_decide as H2; [|done].
  case_bool_decide as H3; [|done]. cbn.
  case_bool_decide as H4; [|done].
  destruct Hbad as [?|[?|[?|[?|Hrw]]]]; try done.
  destruct (lookup_lt_is_Some_2 in_data kData) as [d ->];
    [unfold kData; lia|].
  destruct (lookup_lt_is_Some_2 in_data kWeight) as [w ->];
    [unfold kWeight; lia|].
  unfold get2, mret, M_ret.
  destruct (shape_ w) as [|? [|? [|? ?]]]; try done.
  destruct (lookup_lt_is_Some_2 out_grad kOut) as [g ->];
    [unfold kOut; lia|].
  rewrite Hrw. by rewrite bool_decide_eq_true_2.
Qed.

(** C5: the claim asks that every call with a wrong slot count on any list
    fails before any buffer is written.  Forward reads the write mode of its
    output slot (line 47) before any size check and never checks the size of
    the write-mode list, which Backward does (line 75): with an empty list
    the read is out of range, so the call is undefined rather than a failed
    check. *)
Theorem Forward_empty_req_undefined (p : Param) (in_data out_data : list TBlob) :
  Forward p [] in_data out_data = Undefined.
Proof. reflexivity. Qed.

(** C6: Backward never reads the forward output values.  Two calls that
    agree on the configuration, the output gradients, the input values, the
    write modes and the gradient buffers end in the same outcome, with the
    same gradients written, whatever the two lists of output values are. *)
Theorem Backward_ignores_out_data (p : Param)
    (out_grad in_data out_data out_data' : list TBlob)
    (req : list OpReqType) (in_grad : list TBlob) :
  Backward p out_grad in_data out_data req in_grad =
  Backward p out_grad in_data out_data' req in_grad.
Proof. reflexivity. Qed.

End OperatorFacts.

(** The canonical layout [batch, 1, 1, features] is seen as a
    [batch] by [features] matrix. *)
Lemma views_as_canonical (b : TBlob) (n m : nat) :
  shape_ b = [Z.of_nat n; 1; 1; Z.of_nat m] → views_as b n m.
Proof.
  intros Hs. unfold views_as, FlatTo2D, flat_shape, flat_batch, Size.
  rewrite Hs. cbn. split; lia.
Qed.

Lemma Forward_affine_witness :
  ∃ o',
    Forward fc_bias [kWriteTo] [x_data; x_weight; x_bias] [x_out] = Ok tt [o'] ∧
    shape_ o' = shape_ x_out ∧
    length (dptr_ o') = 4%nat ∧
    ∀ i j, (i < 2)%nat → (j < 2)%nat →
      elem o' (i * 2 + j) =
        sum_upto 3 (λ k, elem x_data (i * 3 + k) * elem x_weight (j * 3 + k))
        + elem x_bias j.
Proof.
  apply (Forward_affine fc_bias [kWriteTo] x_data x_weight x_bias x_out 2 3 2);
    [reflexivity | split; reflexivity | reflexivity | split; reflexivity
    | intros _; reflexivity].
Defined.

Lemma Backward_gradients_witness :
  ∃ gd' gw' gb',
    Backward fc_bias [x_grad] [x_data; x_weight; x_bias] []
      [kWriteTo; kAddTo; kWriteInplace] [g_data; g_weight; g_bias]
      = Ok tt [gd'; gw'; gb'] ∧
    shape_ gd' = shape_ g_data ∧ shape_ gw' = shape_ g_weight ∧
    shape_ gb' = shape_ g_bias ∧
    (∀ j k, (j < 2)%nat → (k < 3)%nat →
       elem gw' (j * 3 + k) =
         written kAddTo (elem g_weight (j * 3 + k))
           (sum_upto 2 (λ i, elem x_grad (i * 2 + j) * elem x_data (i * 3 + k)))) ∧
    (no_bias fc_bias = 0 → ∀ j, (j < 2)%nat →
       elem gb' j =
         written kWriteInplace (elem g_bias j)
           (sum_upto 2 (λ i, elem x_grad (i * 2 + j)))) ∧
    (∀ i k, (i < 2)%nat → (k < 3)%nat →
       elem gd' (i * 3 + k) =
         written kWriteTo (elem g_data (i * 3 + k))
           (sum_upto 2 (λ j, elem x_grad (i * 2 + j) * elem x_weight (j * 3 + k)))).
Proof.
  apply (Backward_gradients fc_bias [] x_grad x_data x_weight x_bias
           g_data g_weight g_bias kWriteTo kAddTo kWriteInplace 2 3 2);
    [discriminate | split; reflexivity | reflexivity | split; reflexivity
    | split; reflexivity | reflexivity | intros _; reflexivity].
Defined.

(** The spec's forward examples: data [[1,2,3],[4,5,6]] against the
    identity-like weight gives [[1,2],[4,5]]; the bias [10,20] shifts every
    row. *)
Example Forward_nobias_example :
  Forward fc_nobias [kWriteTo] [x_data; x_weight] [x_out] =
    Ok tt [{| shape_ := [2; 1; 1; 2]; dptr_ := [1; 2; 4; 5] |}].
Proof. reflexivity. Qed.

Example Forward_bias_example :
  Forward fc_bias [kWriteTo] [x_data; x_weight; x_bias] [x_out] =
    Ok tt [{| shape_ := [2; 1; 1; 2]; dptr_ := [11; 22; 14; 25] |}].
Proof. reflexivity. Qed.

(** With an all-ones output gradient the bias gradient is the batch size. *)
Example Backward_example :
  Backward fc_bias [x_grad] [x_data; x_weight; x_bias] []
    [kWriteTo; kWriteTo; kWriteTo] [g_data; g_weight; g_bias] =
    Ok tt [{| shape_ := [2; 1; 1; 3]; dptr_ := [1; 1; 0; 1; 1; 0] |};
           {| shape_ := [2; 3]; dptr_ := [5; 7; 9; 5; 7; 9] |};
           {| shape_ := [2]; dptr_ := [2; 2] |}].
Proof. reflexivity. Qed.

(** * Further properties *)

(** ** The symbol *)

(** X1: the argument names follow the slot enumeration: "data" sits at
    [kData], "weight" at [kWeight], and "bias" at [kBias] exactly when the
    layer is biased; no name is listed twice, and the number of names is the
    slot count [expected] that the operator checks. *)
Theorem ListArguments_slots (p : Param) :
  ListArguments p !! kData = Some "data" ∧
  ListArguments p !! kWeight = Some "weight" ∧
  (no_bias p = 0 → ListArguments p !! kBias = Some "bias") ∧
  (no_bias p ≠ 0 → ListArguments p !! kBias = None) ∧
  NoDup (ListArguments p) ∧
  length (ListArguments p) = expected p.
Proof.
  unfold ListArguments, expected.
  case_decide; repeat split; try done;
    apply (bool_decide_unpack _); by vm_compute.
Qed.

Lemma ListArguments_slots_witness :
  ListArguments fc_bias !! kBias = Some "bias" ∧
  ListArguments fc_nobias !! kBias = None.
Proof.
  split.
  - apply (proj1 (proj2 (proj2 (ListArguments_slots fc_bias)))). reflexivity.
  - apply (proj1 (proj2 (proj2 (proj2 (ListArguments_slots fc_nobias))))).
    discriminate.
Defined.

(** X2: shape inference succeeds only on as many input shapes as there are
    argument names, and leaves as many. *)
Theorem InferShape_arity (p : Param) (st s' : Shapes) (r : bool) :
  InferShape p st = Ok r s' →
  length (in_shape st) = length (ListArguments p) ∧
  length (in_shape s') = length (ListArguments p) ∧
  length (out_shape s') = 1%nat.
Proof.
  destruct st as [ins outs]. intros HOk.
  apply InferShape_Ok_inv in HOk as (_ & Hlen & _ & b & x & y & f & _ & _ & _ & ->).
  cbn. unfold inferred, ListArguments, expected in *. by case_decide.
Qed.

Lemma InferShape_arity_witness :
  length (in_shape shapes_unknown) = length (ListArguments fc5) ∧
  length (in_shape shapes_inferred) = length (ListArguments fc5) ∧
  length (out_shape shapes_inferred) = 1%nat.
Proof.
  apply (InferShape_arity fc5 shapes_unknown shapes_inferred true). reflexivity.
Defined.

(** A copy of a symbol lists the same arguments and infers the same shapes
    as the symbol it was copied from. *)
Lemma Copy_same_behaviour (p : Param) (st : Shapes) :
  ListArguments (Copy p) = ListArguments p ∧
  InferShape (Copy p) st = InferShape p st.
Proof. by destruct p. Qed.

(** X3: BackwardInplaceOption is in range exactly when both the
    input-gradient and the input-value index lists are not empty; it then
    returns the single pair made of their data entries, whatever the other
    entries and the two unused lists are. *)
Theorem BackwardInplaceOption_pair
    (out_grad in_data out_data in_grad : list Z) :
  (is_Some (BackwardInplaceOption out_grad in_data out_data in_grad) ↔
     in_grad ≠ [] ∧ in_data ≠ []) ∧
  (∀ g d gs ds out_grad' out_data',
     in_grad = g :: gs → in_data = d :: ds →
     BackwardInplaceOption out_grad' in_data out_data' in_grad = Some [(g, d)]).
Proof.
  unfold BackwardInplaceOption. split.
  - destruct in_grad, in_data; cbn; split;
      try (intros [? ?]; done); try (intros [? ?]; simplify_eq); eauto.
  - by intros g d gs ds og' od' -> ->.
Qed.

Lemma BackwardInplaceOption_pair_witness :
  is_Some (BackwardInplaceOption [7] [1; 2; 3] [9] [4; 5; 6]) ∧
  BackwardInplaceOption [] [1; 2; 3] [] [4; 5; 6] = Some [(4, 1)].
Proof.
  split.
  - apply (proj1 (BackwardInplaceOption_pair [7] [1; 2; 3] [9] [4; 5; 6])).
    split; discriminate.
  - apply (proj2 (BackwardInplaceOption_pair [7] [1; 2; 3] [9] [4; 5; 6])
             4 1 [5; 6] [2; 3] [] []); reflexivity.
Defined.

(** X4: DeclareBackwardDependency is in range exactly when there is an
    output gradient index and at least two input indices; the bias index, and
    any index after it, never takes part in the result. *)
Theorem DeclareBackwardDependency_bounds (out_grad in_data out_data : list Z) :
  (is_Some (DeclareBackwardDependency out_grad in_data out_data) ↔
     (1 ≤ length out_grad)%nat ∧ (2 ≤ length in_data)%nat) ∧
  (∀ in_data',
     take 2 in_data' = take 2 in_data →
     DeclareBackwardDependency out_grad in_data' out_data =
     DeclareBackwardDependency out_grad in_data out_data).
Proof.
  unfold DeclareBackwardDependency. split.
  - destruct out_grad as [|g ?], in_data as [|d [|w ?]]; cbn; split;
      try (intros [? ?]; done); try (intros [? ?]; lia); eauto.
  - intros in_data' Ht.
    destruct in_data as [|d [|w ?]], in_data' as [|d' [|w' ?]];
      simplify_eq/=; done.
Qed.

Lemma DeclareBackwardDependency_bounds_witness :
  is_Some (DeclareBackwardDependency [7] [1; 2; 3] [9]) ∧
  DeclareBackwardDependency [7] [1; 2; 8] [9] =
  DeclareBackwardDependency [7] [1; 2; 3] [9].
Proof.
  split.
  - apply (proj1 (DeclareBackwardDependency_bounds [7] [1; 2; 3] [9])).
    cbn. lia.
  - apply (proj2 (DeclareBackwardDependency_bounds [7] [1; 2; 3] [9])).
    reflexivity.
Defined.

(** ** Shape inference, errors *)

(** X5: InferShape fails with both shape vectors untouched when the slot
    count is wrong, when the hidden-unit count is not positive, when the data
    shape is not of rank 4, or when the weight slot is known and differs from
    the derived weight shape: each of these checks comes before the first
    write. *)
Theorem InferShape_rejects_untouched (p : Param) (ins outs : list TShape) :
  length ins ≠ expected p ∨
  num_hidden p ≤ 0 ∨
  (∀ d, ins !! kData = Some d → ndim d ≠ 4%nat) ∨
  (∃ b x y f t, ins !! kData = Some [b; x; y; f] ∧ ins !! kWeight = Some t ∧
                known t ∧ t ≠ [num_hidden p; f]) →
  InferShape p {| in_shape := ins; out_shape := outs |} =
    Fatal {| in_shape := ins; out_shape := outs |}.
Proof.
  unfold expected, known, ndim, kData, kWeight.
  intros Hbad.
  destruct ins as [|d [|w [|bs [|? ?]]]];
    unfold_M; cbn;
    repeat (case_decide || case_bool_decide; simplify_eq/=); try done.
  all: destruct Hbad as [?|[?|[Hd|(b & x & y & f & t & Hd & Hw & Hk & Hne)]]];
    try done; try lia; simplify_eq/=.
  all: try (by destruct (Hd _ eq_refl)).
  all: destruct t; [done|].
  all: repeat (case_decide || case_bool_decide; simplify_eq/=); done.
Qed.

Lemma InferShape_rejects_untouched_witness :
  InferShape fc5 shapes_bad_weight = Fatal shapes_bad_weight.
Proof.
  apply (InferShape_rejects_untouched fc5 [[2; 1; 1; 3]; [5; 4]; []] []).
  right. right. right. exists 2, 1, 1, 3, [5; 4].
  repeat split; [unfold known; cbn; lia | discriminate].
Defined.

(** X6: a failure of InferShape is not atomic.  In a biased layer whose
    bias slot is known and differs from the derived bias shape, while the
    earlier checks pass, InferShape fails after the weight slot has been
    assigned: an unknown weight slot is left filled with the derived weight
    shape. *)
Theorem InferShape_bias_conflict_after_weight (p : Param)
    (ins outs : list TShape) (b x y f : Z) (t : TShape) :
  num_hidden p > 0 →
  no_bias p = 0 →
  length ins = 3%nat →
  ins !! kData = Some [b; x; y; f] →
  fits ins kWeight [num_hidden p; f] →
  ins !! kBias = Some t → known t → t ≠ [num_hidden p] →
  InferShape p {| in_shape := ins; out_shape := outs |} =
    Fatal {| in_shape := <[kWeight := [num_hidden p; f]]> ins;
             out_shape := outs |}.
Proof.
  unfold fits, known, ndim, kData, kWeight, kBias.
  intros Hh Hnb Hlen Hd Hw Ht Hk Hne.
  destruct ins as [|d [|w [|bs [|? ?]]]]; simplify_eq/=.
  destruct t; [done|].
  destruct Hw as [?|?]; simplify_eq/=;
    unfold_M; cbn;
    repeat (case_decide || case_bool_decide; simplify_eq/=); try done; lia.
Qed.

Lemma InferShape_bias_conflict_after_weight_witness :
  InferShape fc5 {| in_shape := [[2; 1; 1; 3]; []; [4]]; out_shape := [] |} =
    Fatal {| in_shape := [[2; 1; 1; 3]; [5; 3]; [4]]; out_shape := [] |}.
Proof.
  apply (InferShape_bias_conflict_after_weight fc5 [[2; 1; 1; 3]; []; [4]] []
           2 1 1 3 [4]);
    [reflexivity | reflexivity | reflexivity | reflexivity | by left
    | reflexivity | unfold known; cbn; lia | discriminate].
Defined.

(** X7: what InferShape returns and the shapes it leaves do not depend on
    the output shapes the caller passed in. *)
Theorem InferShape_ignores_out_shape (p : Param) (ins outs outs' : list TShape)
    (r : bool) (s' : Shapes) :
  InferShape p {| in_shape := ins; out_shape := outs |} = Ok r s' →
  InferShape p {| in_shape := ins; out_shape := outs' |} = Ok r s'.
Proof.
  intros HOk.
  apply InferShape_Ok_inv in HOk
    as (-> & Hlen & Hh & b & x & y & f & Hd & Hw & Hb & ->).
  by apply InferShape_Ok_intro.
Qed.

Lemma InferShape_ignores_out_shape_witness :
  InferShape fc5 {| in_shape := [[2; 1; 1; 3]; []; []]; out_shape := [[1]; [2]] |}
    = Ok true shapes_inferred.
Proof.
  apply (InferShape_ignores_out_shape fc5 [[2; 1; 1; 3]; []; []] [] [[1]; [2]]).
  reflexivity.
Defined.

(** X8: InferShape never indexes a vector or a shape out of range: the size
    check on the input vector and the rank check on the data shape come before
    every use of an index, so a call either returns or fails a check. *)
Theorem InferShape_in_range (p : Param) (st : Shapes) :
  (∃ s', InferShape p st = Ok true s') ∨ (∃ s', InferShape p st = Fatal s').
Proof.
  destruct (InferShape_Ok_or_Fatal p st) as [(r & s' & HOk)|HF]; [left|by right].
  destruct st as [ins outs].
  pose proof HOk as HOk'.
  apply InferShape_Ok_inv in HOk' as (-> & _). eauto.
Qed.

(** ** The operator, errors and invariants *)

Section OperatorMore.
Context {R : Real} {F : Flat2D}.

#[local] Arguments FlatTo2D : simpl never.

(** Simplification that leaves the tensor operations folded. *)
Ltac mcbn :=
  cbn -[Assign2 Assign1 save2 save1 FlatTo2D tabulate2 tabulate1 dot T
       tensor2 sum_rows repmat].

(** An assignment checks the shapes, then writes; it does nothing else. *)
Lemma save2_run (sv : real_t → real_t → real_t) (k n m : nat) (e : Exp2)
    (bufs : list TBlob) (b : TBlob) :
  bufs !! k = Some b →
  save2 sv k n m e bufs =
    if ok2 e && bool_decide (rows e = n) && bool_decide (cols e = m)
    then Ok tt (<[k := {| shape_ := shape_ b;
                          dptr_ := tabulate2 n m (λ i j,
                            sv (elem b (i * m + j)) (Eval2 e i j)) |}]> bufs)
    else Fatal bufs.
Proof.
  intros Hk. unfold save2, vec_at, CHECK, get_state, put_state, mbind, M_bind.
  destruct (ok2 e && bool_decide (rows e = n) && bool_decide (cols e = m));
    [|done].
  by rewrite Hk.
Qed.

Lemma save1_run (sv : real_t → real_t → real_t) (k n : nat) (e : Exp1)
    (bufs : list TBlob) (b : TBlob) :
  bufs !! k = Some b →
  save1 sv k n e bufs =
    if ok1 e && bool_decide (len e = n)
    then Ok tt (<[k := {| shape_ := shape_ b;
                          dptr_ := tabulate1 n (λ j,
                            sv (elem b j) (Eval1 e j)) |}]> bufs)
    else Fatal bufs.
Proof.
  intros Hk. unfold save1, vec_at, CHECK, get_state, put_state, mbind, M_bind.
  destruct (ok1 e && bool_decide (len e = n)); [|done].
  by rewrite Hk.
Qed.

Lemma Assign2_run (k : nat) (out : Tensor2) (req : OpReqType) (e : Exp2)
    (bufs : list TBlob) (b : TBlob) :
  bufs !! k = Some b →
  Assign2 k out req e bufs =
    if ok2 e && bool_decide (rows e = size0 out) && bool_decide (cols e = size1 out)
    then Ok tt (<[k := {| shape_ := shape_ b;
                          dptr_ := tabulate2 (size0 out) (size1 out) (λ i j,
                            written req (elem b (i * size1 out + j))
                              (Eval2 e i j)) |}]> bufs)
    else Fatal bufs.
Proof. intros. destruct req; by apply save2_run. Qed.

Lemma Assign1_run (k : nat) (out : Tensor1) (req : OpReqType) (e : Exp1)
    (bufs : list TBlob) (b : TBlob) :
  bufs !! k = Some b →
  Assign1 k out req e bufs =
    if ok1 e && bool_decide (len e = size out)
    then Ok tt (<[k := {| shape_ := shape_ b;
                          dptr_ := tabulate1 (size out) (λ j,
                            written req (elem b j) (Eval1 e j)) |}]> bufs)
    else Fatal bufs.
Proof. intros. destruct req; by apply save1_run. Qed.

Lemma expected_cases (p : Param) :
  (no_bias p = 0 ∧ expected p = 3%nat) ∨ (no_bias p ≠ 0 ∧ expected p = 2%nat).
Proof. unfold expected. case_decide; eauto. Qed.

(** The ways a call of Forward can end. *)
Lemma Forward_cases (p : Param) (req : list OpReqType)
    (in_data out_data : list TBlob) :
  (req = [] ∧ Forward p req in_data out_data = Undefined) ∨
  (req ≠ [] ∧ Forward p req in_data out_data = Fatal out_data) ∨
  (∃ o o1, req ≠ [] ∧ out_data = [o] ∧ no_bias p = 0 ∧ shape_ o1 = shape_ o ∧
           Forward p req in_data out_data = Fatal [o1]) ∨
  (∃ o o', req ≠ [] ∧ out_data = [o] ∧ shape_ o' = shape_ o ∧
           Forward p req in_data out_data = Ok tt [o']).
Proof.
  destruct req as [|r req]; [by left|right].
  unfold Forward, vec_at, CHECK, get_state, mbind, M_bind, mret, M_ret.
  mcbn.
  case_bool_decide as H1; [|by left].
  case_bool_decide as H2; [|by left].
  case_bool_decide as H3; [|by left].
  destruct out_data as [|o [|? ?]]; try done. mcbn.
  destruct (expected_cases p) as [[Hnb He]|[Hnb He]]; rewrite He in H2.
  - destruct in_data as [|d [|w [|b [|? ?]]]]; try done. mcbn.
    unfold get2, get1, mret, M_ret.
    destruct (shape_ w) as [|? [|? [|? ?]]]; try by left.
    rewrite (save2_run _ _ _ _ _ _ o) by done.
    destruct (_ && _); [|by left]. mcbn.
    rewrite decide_True by done. mcbn.
    destruct (shape_ b) as [|? [|? ?]];
      try (right; left; eexists o, {| shape_ := shape_ o; dptr_ := _ |}; by repeat split).
    erewrite save2_run by done.
    destruct (_ && _).
    + right. right. eexists o, {| shape_ := shape_ o; dptr_ := _ |}. by repeat split.
    + right. left. eexists o, {| shape_ := shape_ o; dptr_ := _ |}. by repeat split.
  - destruct in_data as [|d [|w [|? ?]]]; try done. mcbn.
    unfold get2, get1, mret, M_ret.
    destruct (shape_ w) as [|? [|? [|? ?]]]; try by left.
    rewrite (save2_run _ _ _ _ _ _ o) by done.
    destruct (_ && _); [|by left]. mcbn.
    rewrite decide_False by done.
    right. right. eexists o, {| shape_ := shape_ o; dptr_ := _ |}. by repeat split.
Qed.

(** X11: the only index Forward can take out of range is the write mode of
    its output: a call is undefined exactly when the write-mode list is
    empty.  The other indexings come after the size checks that cover them. *)
Theorem Forward_in_range (p : Param) (req : list OpReqType)
    (in_data out_data : list TBlob) :
  Forward p req in_data out_data = Undefined ↔ req = [].
Proof.
  destruct (Forward_cases p req in_data out_data)
    as [[Hr HF]|[[Hr HF]|[(o & o1 & Hr & _ & _ & _ & HF)|(o & o' & Hr & _ & _ & HF)]]];
    rewrite HF; split; done.
Qed.

(** X12: however a call of Forward ends, it leaves as many output buffers
    as it was given, each with the shape it had: only contents are written. *)
Theorem Forward_keeps_shapes (p : Param) (req : list OpReqType)
    (in_data out_data s : list TBlob) :
  final_state (Forward p req in_data out_data) = Some s →
  shape_ <$> s = shape_ <$> out_data.
Proof.
  destruct (Forward_cases p req in_data out_data)
    as [[Hr HF]|[[Hr HF]|[(o & o1 & Hr & -> & _ & Ho & HF)|(o & o' & Hr & -> & Ho & HF)]]];
    rewrite HF; cbn; intros ?; simplify_eq; try done; cbn; by rewrite Ho.
Qed.

(** X13: in a layer without bias a failed call of Forward has written
    nothing: the output buffers are as they were.  The single assignment of
    such a layer checks its shapes before it writes. *)
Theorem Forward_nobias_fails_clean (p : Param) (req : list OpReqType)
    (in_data out_data s : list TBlob) :
  no_bias p ≠ 0 →
  Forward p req in_data out_data = Fatal s →
  s = out_data.
Proof.
  intros Hnb.
  destruct (Forward_cases p req in_data out_data)
    as [[Hr HF]|[[Hr HF]|[(o & o1 & Hr & -> & Hb & Ho & HF)|(o & o' & Hr & -> & Ho & HF)]]];
    rewrite HF; intros ?; by simplify_eq.
Qed.

(** X14: Forward overwrites.  The outcome of a successful call does not
    depend on what the output buffer held before, only on its shape. *)
Theorem Forward_overwrites (p : Param) (req : list OpReqType)
    (in_data : list TBlob) (o o' : TBlob) (s : list TBlob) :
  shape_ o' = shape_ o →
  Forward p req in_data [o] = Ok tt s →
  Forward p req in_data [o'] = Ok tt s.
Proof.
  intros Hs.
  assert (FlatTo2D o' = {| size0 := size0 (FlatTo2D o);
                            size1 := size1 (FlatTo2D o);
                            dptr2 := dptr_ o' |}) as HF.
  { unfold FlatTo2D. by rewrite Hs. }
  unfold Forward, vec_at, CHECK, get_state, mbind, M_bind, mret, M_ret.
  destruct (req !! kOut) as [r|]; [|done]. mcbn.
  case_bool_decide; [|done].
  case_bool_decide; [|done].
  rewrite !bool_decide_eq_true_2 by done. mcbn.
  destruct (in_data !! kData) as [d|]; [|done].
  destruct (in_data !! kWeight) as [w|]; [|done].
  unfold get2, mret, M_ret.
  destruct (shape_ w) as [|? [|? [|? ?]]]; try done.
  rewrite HF. mcbn.
  rewrite (save2_run _ _ _ _ _ _ o), (save2_run _ _ _ _ _ _ o') by done.
  destruct (_ && _); [|done]. mcbn. rewrite Hs. unfold saveto.
  done.
Qed.

(** Closes a case of [Backward_cases]: the state reached and its shapes. *)
Ltac reached :=
  eexists; split; [(by left) || (by right) | cbn; congruence].

(** The ways a call of Backward can end. *)
Lemma Backward_cases (p : Param) (out_grad in_data out_data : list TBlob)
    (req : list OpReqType) (in_grad : list TBlob) :
  ∃ s, (Backward p out_grad in_data out_data req in_grad = Fatal s ∨
        Backward p out_grad in_data out_data req in_grad = Ok tt s) ∧
       shape_ <$> s = shape_ <$> in_grad.
Proof.
  unfold Backward, vec_at, CHECK, get_state, mbind, M_bind, mret, M_ret.
  case_bool_decide as H1; [|reached].
  case_bool_decide as H2; [|reached].
  case_bool_decide as H3; [|reached]. mcbn.
  case_bool_decide as H4; [|reached].
  destruct out_grad as [|g [|? ?]]; try done. mcbn.
  destruct (expected_cases p) as [[Hnb He]|[Hnb He]]; rewrite He in *.
  - destruct in_data as [|d [|w [|b [|? ?]]]]; try done.
    destruct in_grad as [|gd [|gw [|gb [|? ?]]]]; try done.
    destruct req as [|rd [|rw [|rb [|? ?]]]]; try done. mcbn.
    unfold get2, get1, mret, M_ret.
    destruct (shape_ w) as [|? [|? [|? ?]]]; try reached.
    case_bool_decide; [reached|]. mcbn.
    destruct (shape_ gw) as [|? [|? [|? ?]]] eqn:Hgw; try reached.
    rewrite (Assign2_run _ _ _ _ _ gw) by done.
    destruct (_ && _); [|reached]. mcbn.
    rewrite decide_True by done. mcbn.
    destruct (shape_ gb) as [|? [|? ?]] eqn:Hgb;
      try reached.
    erewrite Assign1_run by done.
    destruct (_ && _); [|reached]. mcbn.
    erewrite Assign2_run by done.
    destruct (_ && _);
      reached.
  - destruct in_data as [|d [|w [|? ?]]]; try done.
    destruct in_grad as [|gd [|gw [|? ?]]]; try done.
    destruct req as [|rd [|rw [|? ?]]]; try done. mcbn.
    unfold get2, get1, mret, M_ret.
    destruct (shape_ w) as [|? [|? [|? ?]]]; try reached.
    case_bool_decide; [reached|]. mcbn.
    destruct (shape_ gw) as [|? [|? [|? ?]]] eqn:Hgw; try reached.
    rewrite (Assign2_run _ _ _ _ _ gw) by done.
    destruct (_ && _); [|reached]. mcbn.
    rewrite decide_False by done. mcbn.
    erewrite Assign2_run by done.
    destruct (_ && _);
      reached.
Qed.

(** X15: Backward never indexes a list out of range: its three size checks
    come first and cover every index it uses, so a call either returns or
    fails a check. *)
Theorem Backward_in_range (p : Param) (out_grad in_data out_data : list TBlob)
    (req : list OpReqType) (in_grad : list TBlob) :
  (∃ s, Backward p out_grad in_data out_data req in_grad = Ok tt s) ∨
  (∃ s, Backward p out_grad in_data out_data req in_grad = Fatal s).
Proof.
  destruct (Backward_cases p out_grad in_data out_data req in_grad)
    as (s & [HB|HB] & _); eauto.
Qed.

(** X16: however a call of Backward ends, it leaves as many gradient
    buffers as it was given, each with the shape it had. *)
Theorem Backward_keeps_shapes (p : Param)
    (out_grad in_data out_data : list TBlob) (req : list OpReqType)
    (in_grad s : list TBlob) :
  final_state (Backward p out_grad in_data out_data req in_grad) = Some s →
  shape_ <$> s = shape_ <$> in_grad.
Proof.
  destruct (Backward_cases p out_grad in_data out_data req in_grad)
    as (s' & [HB|HB] & Hs); rewrite HB; cbn; intros ?; by simplify_eq.
Qed.

(** X17: of the input values Backward reads the data and the weight only,
    the two that DeclareBackwardDependency declares: replacing the entries
    after them, the bias value, by any others changes nothing in the
    outcome. *)
Theorem Backward_reads_data_and_weight (p : Param)
    (out_grad in_data in_data' out_data : list TBlob)
    (req : list OpReqType) (in_grad : list TBlob) :
  length in_data' = length in_data →
  take 2 in_data' = take 2 in_data →
  Backward p out_grad in_data' out_data req in_grad =
  Backward p out_grad in_data out_data req in_grad.
Proof.
  intros Hlen Ht.
  assert (in_data' !! kData = in_data !! kData) as Hd.
  { rewrite <-(lookup_take_lt in_data' 2 kData), <-(lookup_take_lt in_data 2 kData)
      by (unfold kData; lia). by rewrite Ht. }
  assert (in_data' !! kWeight = in_data !! kWeight) as Hw.
  { rewrite <-(lookup_take_lt in_data' 2 kWeight), <-(lookup_take_lt in_data 2 kWeight)
      by (unfold kWeight; lia). by rewrite Ht. }
  unfold Backward, vec_at. by rewrite Hlen, Hd, Hw.
Qed.

(** X18: the data gradient and the bias gradient that Backward writes do not
    depend on the contents of the data buffer, only on its shape: the data
    is read for the weight gradient alone.  This is what lets the data
    gradient share the buffer of the data, as BackwardInplaceOption
    declares. *)
Theorem Backward_data_grad_ignores_data (p : Param)
    (out_grad : list TBlob) (d d' : TBlob) (rest out_data : list TBlob)
    (req : list OpReqType) (in_grad s : list TBlob) :
  shape_ d' = shape_ d →
  Backward p out_grad (d :: rest) out_data req in_grad = Ok tt s →
  ∃ s', Backward p out_grad (d' :: rest) out_data req in_grad = Ok tt s' ∧
        s' !! kData = s !! kData ∧
        s' !! kBias = s !! kBias.
Proof.
  intros Hs.
  assert (FlatTo2D d' = {| size0 := size0 (FlatTo2D d);
                            size1 := size1 (FlatTo2D d);
                            dptr2 := dptr_ d' |}) as HF.
  { unfold FlatTo2D. by rewrite Hs. }
  unfold Backward, vec_at, CHECK, get_state, mbind, M_bind, mret, M_ret.
  mcbn. rewrite HF.
  case_bool_decide as H1; [|done].
  case_bool_decide as H2; [|done].
  case_bool_decide as H3; [|done]. mcbn.
  case_bool_decide as H4; [|done].
  destruct out_grad as [|g [|? ?]]; try done. mcbn.
  destruct (expected_cases p) as [[Hnb He]|[Hnb He]]; rewrite He in *.
  - destruct rest as [|w [|b [|? ?]]]; try done.
    destruct in_grad as [|gd [|gw [|gb [|? ?]]]]; try done.
    destruct req as [|rd [|rw [|rb [|? ?]]]]; try done. mcbn.
    unfold get2, get1, mret, M_ret.
    destruct (shape_ w) as [|? [|? [|? ?]]]; try done.
    case_bool_decide; [done|]. mcbn.
    destruct (shape_ gw) as [|? [|? [|? ?]]]; try done.
    rewrite !(Assign2_run _ _ _ _ _ gw) by done.
    cbn [ok2 rows cols dot T tensor2 size0 size1].
    destruct (_ && _); [|done]. mcbn.
    rewrite !decide_True by done. mcbn.
    destruct (shape_ gb) as [|? [|? ?]]; try done.
    rewrite !(Assign1_run _ _ _ _ _ gb) by done.
    destruct (_ && _); [|done]. mcbn.
    rewrite !(Assign2_run _ _ _ _ _ gd) by done.
    destruct (_ && _); [|done]. mcbn.
    intros ?; simplify_eq. by eexists.
  - destruct rest as [|w [|? ?]]; try done.
    destruct in_grad as [|gd [|gw [|? ?]]]; try done.
    destruct req as [|rd [|rw [|? ?]]]; try done. mcbn.
    unfold get2, get1, mret, M_ret.
    destruct (shape_ w) as [|? [|? [|? ?]]]; try done.
    case_bool_decide; [done|]. mcbn.
    destruct (shape_ gw) as [|? [|? [|? ?]]]; try done.
    rewrite !(Assign2_run _ _ _ _ _ gw) by done.
    cbn [ok2 rows cols dot T tensor2 size0 size1].
    destruct (_ && _); [|done]. mcbn.
    rewrite !decide_False by done. mcbn.
    rewrite !(Assign2_run _ _ _ _ _ gd) by done.
    destruct (_ && _); [|done]. mcbn.
    intros ?; simplify_eq. by eexists.
Qed.

(** ** Shape inference and the operator together *)

(** The 2-D view of a buffer of the canonical layout. *)
Lemma FlatTo2D_canonical (t : TBlob) (n m : Z) :
  (∀ n m, flat_shape [n; 1; 1; m] = (Z.to_nat n, Z.to_nat m)) →
  shape_ t = [n; 1; 1; m] →
  FlatTo2D t = {| size0 := Z.to_nat n; size1 := Z.to_nat m; dptr2 := dptr_ t |}.
Proof. intros Hflat Hs. unfold FlatTo2D. by rewrite Hs, Hflat. Qed.

(** X19: the shapes InferShape infers are shapes Forward accepts.  When the
    canonical layout [batch, 1, 1, features] is viewed as a batch by features
    matrix, buffers that have the input and output shapes left by a
    successful InferShape on data [b, 1, 1, f] pass every check of Forward in
    Overwrite mode: the call returns, and the output keeps the inferred
    shape. *)
Theorem InferShape_shapes_fit_Forward (p : Param) (ins outs : list TShape)
    (s' : Shapes) (b f : Z) (req : list OpReqType)
    (in_data out_data : list TBlob) :
  (∀ n m, flat_shape [n; 1; 1; m] = (Z.to_nat n, Z.to_nat m)) →
  InferShape p {| in_shape := ins; out_shape := outs |} = Ok true s' →
  ins !! kData = Some [b; 1; 1; f] →
  shape_ <$> in_data = in_shape s' →
  shape_ <$> out_data = out_shape s' →
  req !! kOut = Some kWriteTo →
  ∃ out', Forward p req in_data out_data = Ok tt out' ∧
          shape_ <$> out' = out_shape s'.
Proof.
  intros Hflat HOk Hd Hin Hout Hreq.
  apply InferShape_Ok_inv in HOk
    as (_ & _ & _ & b' & x' & y' & f' & Hd' & _ & _ & ->).
  assert (b' = b ∧ x' = 1 ∧ y' = 1 ∧ f' = f) as (-> & -> & -> & ->)
    by (split_and!; congruence).
  cbn in Hin, Hout.
  destruct out_data as [|o [|? ?]]; try discriminate Hout.
  injection Hout as Ho.
  unfold inferred, Shape1, Shape2 in Hin.
  unfold Forward, expected, vec_at, CHECK, get_state, mbind, M_bind, mret, M_ret.
  rewrite Hreq.
  destruct (decide (no_bias p = 0)) as [Hnb|Hnb].
  - rewrite ?decide_True in Hin by done.
    destruct in_data as [|d [|w [|bb [|? ?]]]]; try discriminate Hin.
    injection Hin as Hsd Hsw Hsb.
    rewrite !bool_decide_eq_true_2 by done. mcbn.
    unfold get2, get1, mret, M_ret. rewrite Hsw, Hsb.
    rewrite (FlatTo2D_canonical d b f), (FlatTo2D_canonical o b (num_hidden p))
      by done.
    mcbn.
    rewrite (save2_Ok _ _ _ _ _ _ o); [|by cbn; rewrite bool_decide_eq_true_2|done..].
    mcbn.
    erewrite save2_Ok; [|done..].
    eexists. split; [done|]. cbn. by rewrite Ho.
  - rewrite ?decide_False in Hin by done.
    destruct in_data as [|d [|w [|? ?]]]; try discriminate Hin.
    injection Hin as Hsd Hsw.
    rewrite !bool_decide_eq_true_2 by done. mcbn.
    unfold get2, get1, mret, M_ret. rewrite Hsw.
    rewrite (FlatTo2D_canonical d b f), (FlatTo2D_canonical o b (num_hidden p))
      by done.
    mcbn.
    rewrite (save2_Ok _ _ _ _ _ _ o); [|by cbn; rewrite bool_decide_eq_true_2|done..].
    eexists. split; [done|]. cbn. by rewrite Ho.
Qed.

(** X20: the shapes InferShape infers are shapes Backward accepts.  Under
    the same view of the canonical layout, with input values and input
    gradients of the inferred input shapes, an output gradient of the
    inferred output shape, one write mode per input and a weight mode other
    than WriteInPlace, Backward passes all its checks and returns, and every
    gradient keeps the inferred shape of its input. *)
Theorem InferShape_shapes_fit_Backward (p : Param) (ins outs : list TShape)
    (s' : Shapes) (b f : Z) (req : list OpReqType)
    (out_grad in_data out_data in_grad : list TBlob) :
  (∀ n m, flat_shape [n; 1; 1; m] = (Z.to_nat n, Z.to_nat m)) →
  InferShape p {| in_shape := ins; out_shape := outs |} = Ok true s' →
  ins !! kData = Some [b; 1; 1; f] →
  shape_ <$> in_data = in_shape s' →
  shape_ <$> in_grad = in_shape s' →
  shape_ <$> out_grad = out_shape s' →
  length req = expected p →
  req !! kWeight ≠ Some kWriteInplace →
  ∃ s, Backward p out_grad in_data out_data req in_grad = Ok tt s ∧
       shape_ <$> s = in_shape s'.
Proof.
  intros Hflat HOk Hd Hin Hgrad Hout Hlen Hrw.
  apply InferShape_Ok_inv in HOk
    as (_ & _ & _ & b' & x' & y' & f' & Hd' & _ & _ & ->).
  assert (b' = b ∧ x' = 1 ∧ y' = 1 ∧ f' = f) as (-> & -> & -> & ->)
    by (split_and!; congruence).
  cbn in Hin, Hgrad, Hout.
  destruct out_grad as [|g [|? ?]]; try discriminate Hout.
  injection Hout as Hg.
  unfold inferred, Shape1, Shape2 in *.
  unfold Backward, expected, vec_at, CHECK, get_state, mbind, M_bind, mret, M_ret
    in *.
  destruct (decide (no_bias p = 0)) as [Hnb|Hnb].
  - destruct in_data as [|d [|w [|bb [|? ?]]]]; try discriminate Hin.
    injection Hin as Hsd Hsw Hsb.
    destruct in_grad as [|gd [|gw [|gb [|? ?]]]]; try discriminate Hgrad.
    injection Hgrad as Hgd Hgw Hgb.
    destruct req as [|rd [|rw [|rb [|? ?]]]]; try discriminate Hlen.
    rewrite !bool_decide_eq_true_2 by done. mcbn.
    unfold get2, get1, mret, M_ret. rewrite Hsw.
    rewrite bool_decide_eq_false_2 by (cbn in Hrw; congruence). mcbn.
    rewrite Hgw.
    rewrite (FlatTo2D_canonical d b f), (FlatTo2D_canonical g b (num_hidden p))
      by done.
    mcbn.
    rewrite (Assign2_Ok _ _ _ _ _ gw);
      [|by cbn; rewrite bool_decide_eq_true_2|done..].
    mcbn. rewrite Hgb.
    rewrite (Assign1_Ok _ _ _ _ _ gb); [|done..].
    mcbn. rewrite (FlatTo2D_canonical gd b f) by done.
    rewrite (Assign2_Ok _ _ _ _ _ gd);
      [|by cbn; rewrite bool_decide_eq_true_2|done..].
    eexists. split; [done|]. cbn. by rewrite Hgd, Hgw, Hgb.
  - destruct in_data as [|d [|w [|? ?]]]; try discriminate Hin.
    injection Hin as Hsd Hsw.
    destruct in_grad as [|gd [|gw [|? ?]]]; try discriminate Hgrad.
    injection Hgrad as Hgd Hgw.
    destruct req as [|rd [|rw [|? ?]]]; try discriminate Hlen.
    rewrite !bool_decide_eq_true_2 by done. mcbn.
    unfold get2, get1, mret, M_ret. rewrite Hsw.
    rewrite bool_decide_eq_false_2 by (cbn in Hrw; congruence). mcbn.
    rewrite Hgw.
    rewrite (FlatTo2D_canonical d b f), (FlatTo2D_canonical g b (num_hidden p))
      by done.
    mcbn.
    rewrite (Assign2_Ok _ _ _ _ _ gw);
      [|by cbn; rewrite bool_decide_eq_true_2|done..].
    mcbn. rewrite (FlatTo2D_canonical gd b f) by done.
    rewrite (Assign2_Ok _ _ _ _ _ gd);
      [|by cbn; rewrite bool_decide_eq_true_2|done..].
    eexists. split; [done|]. cbn. by rewrite Hgd, Hgw.
Qed.

(** ** Write modes and partial writes *)

(** Tabulations of pointwise equal functions are equal. *)
Lemma tabulate2_ext (n m : nat) (f g : nat → nat → real_t) :
  (∀ i j, f i j = g i j) → tabulate2 n m f = tabulate2 n m g.
Proof.
  intros Hfg. unfold tabulate2.
  induction (seq 0 n) as [|i l IH]; [done|].
  cbn [flat_map]. rewrite IH. f_equal. apply map_ext. intros j. apply Hfg.
Qed.

Lemma tabulate1_ext (n : nat) (f g : nat → real_t) :
  (∀ j, f j = g j) → tabulate1 n f = tabulate1 n g.
Proof. intros Hfg. unfold tabulate1. by apply map_ext. Qed.

(** Unless the mode is AccumulateAdd, the old contents are not used. *)
Lemma written_new (req : OpReqType) (old old' new : real_t) :
  req ≠ kAddTo → written req old new = written req old' new.
Proof. by destruct req. Qed.

(** The 2-D view of a buffer depends on its contents and its shape only. *)
Lemma FlatTo2D_shape (t t' : TBlob) :
  shape_ t' = shape_ t →
  FlatTo2D t' = {| size0 := size0 (FlatTo2D t); size1 := size1 (FlatTo2D t);
                   dptr2 := dptr_ t' |}.
Proof. intros Hs. unfold FlatTo2D. by rewrite Hs. Qed.

(** X21: when no write mode is AccumulateAdd, Backward overwrites: the
    outcome of a successful call does not depend on what the gradient buffers
    held before, only on their shapes. *)
Theorem Backward_overwrites (p : Param)
    (out_grad in_data out_data : list TBlob) (req : list OpReqType)
    (in_grad in_grad' s : list TBlob) :
  Forall (λ r, r ≠ kAddTo) req →
  shape_ <$> in_grad' = shape_ <$> in_grad →
  Backward p out_grad in_data out_data req in_grad = Ok tt s →
  Backward p out_grad in_data out_data req in_grad' = Ok tt s.
Proof.
  intros Hreq Hs.
  assert (length in_grad' = length in_grad) as Hlen.
  { by rewrite <-(length_fmap shape_ in_grad'), Hs, length_fmap. }
  unfold Backward, vec_at, CHECK, get_state, mbind, M_bind, mret, M_ret.
  case_bool_decide as H1; [|done]. mcbn. rewrite Hlen.
  case_bool_decide as H2; [|done].
  case_bool_decide as H3; [|done]. mcbn.
  case_bool_decide as H4; [|done].
  destruct out_grad as [|g [|? ?]]; try done. mcbn.
  destruct (expected_cases p) as [[Hnb He]|[Hnb He]]; rewrite He in *.
  - destruct in_data as [|d [|w [|b [|? ?]]]]; try done.
    destruct in_grad as [|gd [|gw [|gb [|? ?]]]]; try done.
    destruct in_grad' as [|gd' [|gw' [|gb' [|? ?]]]]; try done.
    injection Hs as Hgd Hgw Hgb.
    destruct req as [|rd [|rw [|rb [|? ?]]]]; try done.
    apply Forall_cons in Hreq as [Hrd Hreq].
    apply Forall_cons in Hreq as [Hrw Hreq].
    apply Forall_cons in Hreq as [Hrb _].
    mcbn. unfold get2, get1, mret, M_ret.
    destruct (shape_ w) as [|? [|? [|? ?]]]; try done.
    case_bool_decide; [done|]. mcbn.
    rewrite Hgw.
    destruct (shape_ gw) as [|? [|? [|? ?]]] eqn:Egw; try done.
    rewrite (Assign2_run _ _ _ _ _ gw), (Assign2_run _ _ _ _ _ gw') by done.
    destruct (_ && _); [|done]. mcbn.
    rewrite !decide_True by done. mcbn.
    rewrite Hgb.
    destruct (shape_ gb) as [|? [|? ?]] eqn:Egb; try done.
    rewrite (Assign1_run _ _ _ _ _ gb), (Assign1_run _ _ _ _ _ gb') by done.
    destruct (_ && _); [|done]. mcbn.
    rewrite (FlatTo2D_shape gd gd') by done.
    rewrite (Assign2_run _ _ _ _ _ gd), (Assign2_run _ _ _ _ _ gd') by done.
    destruct (_ && _); [|done]. mcbn.
    rewrite ?Hgd, ?Hgw, ?Hgb, ?Egw, ?Egb.
    intros <-. f_equal.
    repeat match goal with
           | |- _ :: _ = _ :: _ => f_equal
           | |- Build_TBlob _ _ = Build_TBlob _ _ => f_equal
           end;
      try done;
      (apply tabulate2_ext || apply tabulate1_ext); intros;
      by apply written_new.
  - destruct in_data as [|d [|w [|? ?]]]; try done.
    destruct in_grad as [|gd [|gw [|? ?]]]; try done.
    destruct in_grad' as [|gd' [|gw' [|? ?]]]; try done.
    injection Hs as Hgd Hgw.
    destruct req as [|rd [|rw [|? ?]]]; try done.
    apply Forall_cons in Hreq as [Hrd Hreq].
    apply Forall_cons in Hreq as [Hrw _].
    mcbn. unfold get2, get1, mret, M_ret.
    destruct (shape_ w) as [|? [|? [|? ?]]]; try done.
    case_bool_decide; [done|]. mcbn.
    rewrite Hgw.
    destruct (shape_ gw) as [|? [|? [|? ?]]] eqn:Egw; try done.
    rewrite (Assign2_run _ _ _ _ _ gw), (Assign2_run _ _ _ _ _ gw') by done.
    destruct (_ && _); [|done]. mcbn.
    rewrite !decide_False by done. mcbn.
    rewrite (FlatTo2D_shape gd gd') by done.
    rewrite (Assign2_run _ _ _ _ _ gd), (Assign2_run _ _ _ _ _ gd') by done.
    destruct (_ && _); [|done]. mcbn.
    rewrite ?Hgd, ?Hgw, ?Egw.
    intros <-. f_equal.
    repeat match goal with
           | |- _ :: _ = _ :: _ => f_equal
           | |- Build_TBlob _ _ = Build_TBlob _ _ => f_equal
           end;
      try done;
      (apply tabulate2_ext || apply tabulate1_ext); intros;
      by apply written_new.
Qed.

(** X22: in a biased layer a failure of Forward is not atomic.  The product
    is assigned to the output (line 57) before the bias is looked at (lines
    59-60): when everything but the bias buffer is well formed and the bias
    is not a vector of the output width, the call fails with the output
    already overwritten by data times the transpose of weight. *)
Theorem Forward_bias_failure_after_write (p : Param) (req : list OpReqType)
    (d w b o : TBlob) (n f h : nat) :
  no_bias p = 0 →
  req !! kOut = Some kWriteTo →
  views_as d n f →
  matrix_of w h f →
  views_as o n h →
  (∀ m, shape_ b = [m] → Z.to_nat m ≠ h) →
  ∃ o1,
    Forward p req [d; w; b] [o] = Fatal [o1] ∧
    shape_ o1 = shape_ o ∧
    ∀ i j, (i < n)%nat → (j < h)%nat →
      elem o1 (i * h + j) =
        sum_upto f (λ k, rmul (elem d (i * f + k)) (elem w (j * f + k))).
Proof.
  intros Hnb Hreq [Hd0 Hd1] Hw [Ho0 Ho1] Hb.
  unfold Forward, expected, matrix_of in *.
  destruct (decide (no_bias p = 0)); [|done].
  unfold vec_at, CHECK, get_state, mbind, M_bind, mret, M_ret, get2, get1.
  rewrite Hreq, !bool_decide_eq_true_2 by done. mcbn.
  rewrite Hw. mcbn.
  rewrite (save2_Ok _ _ _ _ _ _ o); cycle 1.
  { cbn. rewrite Nat2Z.id, Hd1. by rewrite bool_decide_eq_true_2. }
  { cbn. congruence. }
  { cbn. by rewrite Nat2Z.id. }
  { done. }
  mcbn.
  assert (∀ o1 : TBlob,
    shape_ o1 = shape_ o →
    dptr_ o1 = tabulate2 (size0 (FlatTo2D o)) (size1 (FlatTo2D o)) (λ i j,
      saveto (elem o (i * size1 (FlatTo2D o) + j))
        (Eval2 (dot (tensor2 (FlatTo2D d))
                  (T (tensor2 {| size0 := Z.to_nat (Z.of_nat h);
                                 size1 := Z.to_nat (Z.of_nat f);
                                 dptr2 := dptr_ w |}))) i j)) →
    ∀ i j, (i < n)%nat → (j < h)%nat →
      elem o1 (i * h + j) =
        sum_upto f (λ k, rmul (elem d (i * f + k)) (elem w (j * f + k))))
    as Hprod.
  { intros o1 _ Hc i j Hi Hj. unfold elem at 1. rewrite Hc, Ho0, Ho1.
    rewrite nth_tabulate2 by done.
    unfold saveto. cbn. unfold at2, elem. cbn.
    rewrite ?dptr2_FlatTo2D, ?Hd1, ?Nat2Z.id. reflexivity. }
  destruct (shape_ b) as [|m [|? ?]] eqn:Eb; mcbn.
  - eexists. split; [done|]. split; [done|]. by apply Hprod.
  - erewrite save2_run by done.
    rewrite (andb_comm _ (bool_decide (cols _ = _))).
    rewrite (bool_decide_eq_false_2 (cols _ = _)); cycle 1.
    { cbn. rewrite Ho1. by apply Hb. }
    cbn [andb].
    eexists. split; [done|]. split; [done|]. by apply Hprod.
  - eexists. split; [done|]. split; [done|]. by apply Hprod.
Qed.

End OperatorMore.

(** ** Runs on the concrete layer *)


Lemma Backward_rejects_witness :
  Backward fc_bias [x_grad] [x_data; x_weight; x_bias] []
    [kWriteTo; kWriteInplace; kWriteTo] [g_data; g_weight; g_bias]
    = Fatal [g_data; g_weight; g_bias].
Proof.
  apply (Backward_rejects fc_bias [x_grad] [x_data; x_weight; x_bias] []
           [kWriteTo; kWriteInplace; kWriteTo] [g_data; g_weight; g_bias]).
  do 4 right. reflexivity.
Defined.

Lemma Forward_keeps_shapes_witness :
  shape_ <$> [y_out]
    = shape_ <$> [x_out].
Proof.
  apply (Forward_keeps_shapes fc_bias [kWriteTo] [x_data; x_weight; x_bias]).
  reflexivity.
Defined.

Lemma Forward_nobias_fails_clean_witness :
  Forward fc_nobias [kWriteTo] [x_data; g_data] [x_out] = Fatal [x_out] ∧
  [x_out] = [x_out].
Proof.
  split; [reflexivity|].
  apply (Forward_nobias_fails_clean fc_nobias [kWriteTo] [x_data; g_data] [x_out]);
    [discriminate | reflexivity].
Defined.

Lemma Forward_overwrites_witness :
  Forward fc_bias [kWriteTo] [x_data; x_weight; x_bias] [x_grad] =
    Ok tt [y_out].
Proof.
  apply (Forward_overwrites fc_bias [kWriteTo] [x_data; x_weight; x_bias]
           x_out x_grad); reflexivity.
Defined.

Lemma Backward_keeps_shapes_witness :
  shape_ <$> [dx_data; dx_weight; dx_bias]
    = shape_ <$> [g_data; g_weight; g_bias].
Proof.
  apply (Backward_keeps_shapes fc_bias [x_grad] [x_data; x_weight; x_bias] []
           [kWriteTo; kWriteTo; kWriteTo]).
  reflexivity.
Defined.

Lemma Backward_reads_data_and_weight_witness :
  Backward fc_bias [x_grad] [x_data; x_weight; x_out] []
    [kWriteTo; kWriteTo; kWriteTo] [g_data; g_weight; g_bias] =
  Backward fc_bias [x_grad] [x_data; x_weight; x_bias] []
    [kWriteTo; kWriteTo; kWriteTo] [g_data; g_weight; g_bias].
Proof.
  apply (Backward_reads_data_and_weight fc_bias [x_grad]
           [x_data; x_weight; x_bias] [x_data; x_weight; x_out]);
    reflexivity.
Defined.

Lemma Backward_data_grad_ignores_data_witness :
  ∃ s',
    Backward fc_bias [x_grad] [g_data; x_weight; x_bias] []
      [kWriteTo; kWriteTo; kWriteTo] [g_data; g_weight; g_bias] = Ok tt s' ∧
    s' !! kData = Some dx_data ∧
    s' !! kBias = Some dx_bias.
Proof.
  apply (Backward_data_grad_ignores_data fc_bias [x_grad] x_data g_data
           [x_weight; x_bias] [] [kWriteTo; kWriteTo; kWriteTo]
           [g_data; g_weight; g_bias]
           [dx_data; dx_weight; dx_bias]);
    reflexivity.
Defined.

(** The spec's view sees the canonical layout as batch by features. *)
Lemma flat_batch_canonical (n m : Z) :
  flat_shape [n; 1; 1; m] = (Z.to_nat n, Z.to_nat m).
Proof.
  unfold flat_shape, flat_batch, Size. cbn [foldr]. f_equal. f_equal. lia.
Qed.

Lemma InferShape_shapes_fit_Forward_witness :
  ∃ out',
    Forward fc_bias [kWriteTo] [x_data; x_weight; x_bias] [x_out] = Ok tt out' ∧
    shape_ <$> out' = [[2; 1; 1; 2]].
Proof.
  apply (InferShape_shapes_fit_Forward fc_bias [[2; 1; 1; 3]; []; []] []
           {| in_shape := [[2; 1; 1; 3]; [2; 3]; [2]];
              out_shape := [[2; 1; 1; 2]] |}
           2 3 [kWriteTo] [x_data; x_weight; x_bias] [x_out]);
    [apply flat_batch_canonical | reflexivity..].
Defined.

Lemma InferShape_shapes_fit_Backward_witness :
  ∃ s,
    Backward fc_bias [x_grad] [x_data; x_weight; x_bias] []
      [kWriteInplace; kAddTo; kWriteTo] [g_data; g_weight; g_bias] = Ok tt s ∧
    shape_ <$> s = [[2; 1; 1; 3]; [2; 3]; [2]].
Proof.
  apply (InferShape_shapes_fit_Backward fc_bias [[2; 1; 1; 3]; []; []] []
           {| in_shape := [[2; 1; 1; 3]; [2; 3]; [2]];
              out_shape := [[2; 1; 1; 2]] |}
           2 3 [kWriteInplace; kAddTo; kWriteTo] [x_grad]
           [x_data; x_weight; x_bias] [] [g_data; g_weight; g_bias]);
    [apply flat_batch_canonical | reflexivity.. | discriminate].
Defined.

Lemma Backward_overwrites_witness :
  Backward fc_bias [x_grad] [x_data; x_weight; x_bias] []
    [kWriteTo; kWriteTo; kWriteInplace] [x_data; x_weight; x_bias] =
    Ok tt [dx_data; dx_weight; dx_bias].
Proof.
  apply (Backward_overwrites fc_bias [x_grad] [x_data; x_weight; x_bias] []
           [kWriteTo; kWriteTo; kWriteInplace] [g_data; g_weight; g_bias]
           [x_data; x_weight; x_bias]);
    [repeat constructor; discriminate | reflexivity | reflexivity].
Defined.

Lemma Forward_bias_failure_after_write_witness :
  ∃ o1,
    Forward fc_bias [kWriteTo] [x_data; x_weight; x_weight] [x_out] = Fatal [o1] ∧
    shape_ o1 = shape_ x_out ∧
    ∀ i j, (i < 2)%nat → (j < 2)%nat →
      elem o1 (i * 2 + j) =
        sum_upto 3 (λ k, elem x_data (i * 3 + k) * elem x_weight (j * 3 + k)).
Proof.
  apply (Forward_bias_failure_after_write fc_bias [kWriteTo]
           x_data x_weight x_weight x_out 2 3 2);
    [reflexivity | reflexivity | split; reflexivity | reflexivity
    | split; reflexivity | intros m Hm; discriminate Hm].
Defined.
